(** * tinyenv: the coercion-and-validation engine of [src/index.ts]

    A shallow embedding of [TinyEnvSchema.parseAndValidate], [convertToType],
    [validateObjectShape], the Standard Schema [validate] wrapper and the
    [tinyenv] entry point, together with the JavaScript built-ins they call
    ([typeof], [String], [Number], [String.prototype.trim], [toLowerCase],
    [split], [Array.prototype.includes], [JSON.parse], [in], property reads
    and writes).

    Modelling scope.
    - A JavaScript string is a [string]: one [ascii] per UTF-16 code unit, so
      the strings covered are those whose code units lie in U+0000..U+00FF.
    - A JavaScript value is JSON-like data or [undefined]: functions, symbols
      and bigints do not occur.  An object is the list of its own enumerable
      string-keyed properties in enumeration order (integer keys ascending,
      then the other keys in insertion order), with pairwise distinct names.
      Property reads ([getProperty]) and the [in] operator of the shape
      check ([hasProperty]) see own properties only; the [in] test on the
      defaults mapping ([inDefaults]) also sees the names a plain object
      inherits from [Object.prototype] ([toString], [constructor], ...).
      The value read under such an inherited name is a built-in function,
      which is outside the values covered, and so are JSON texts with a
      [\u] escape above U+00FF.
    - A number is an exact signed decimal [m * 10^e], or [NaN], or an
      infinity.  Rounding to binary64 and overflow are not modelled; nothing
      in the engine depends on them (it only tests [Number.isNaN]).
    - The text of the [SyntaxError] raised by [JSON.parse] is engine-defined;
      it is a parameter [syntaxErrorMessage] of the development. *)

From Stdlib Require Import String Ascii List Bool Arith ZArith NArith Lia.
From Stdlib Require Import DecimalString.
From Stdlib Require DecimalFacts DecimalPos DecimalN.
From Stdlib Require Import Permutation.
Import ListNotations.
Local Open Scope list_scope.
Local Open Scope string_scope.

(* ===================================================================== *)
(** ** Strings: the methods of [String.prototype] the engine calls       *)
(* ===================================================================== *)

Module JsString.

Definition codeUnit (c : ascii) : N := N_of_ascii c.

(** WhiteSpace and LineTerminator code units below U+0100: TAB, LF, VT, FF,
    CR, SP and NBSP. *)
Definition isWhiteSpace (c : ascii) : bool :=
  let n := codeUnit c in
  ((9 <=? n) && (n <=? 13) || (n =? 32) || (n =? 160))%N.

Fixpoint trimStart (s : string) : string :=
  match s with
  | EmptyString => EmptyString
  | String c r => if isWhiteSpace c then trimStart r else s
  end.

Fixpoint trimEnd (s : string) : string :=
  match s with
  | EmptyString => EmptyString
  | String c r =>
      let r' := trimEnd r in
      if isWhiteSpace c && (r' =? "") then "" else String c r'
  end.

(** [s.trim()] *)
Definition trim (s : string) : string := trimEnd (trimStart s).

(** Upper-case letters below U+0100 are A-Z and U+00C0..U+00DE without the
    multiplication sign U+00D7; each maps to the code unit 32 above it. *)
Definition lowerChar (c : ascii) : ascii :=
  let n := codeUnit c in
  if ((65 <=? n) && (n <=? 90)
      || (192 <=? n) && (n <=? 222) && negb (n =? 215))%N
  then ascii_of_N (n + 32) else c.

(** [s.toLowerCase()] *)
Fixpoint toLowerCase (s : string) : string :=
  match s with
  | EmptyString => EmptyString
  | String c r => String (lowerChar c) (toLowerCase r)
  end.

(** [splitGo sep skip s] returns the pieces of [s]; [skip] counts the code
    units of a separator occurrence that are still to be passed over. *)
Fixpoint splitGo (sep : string) (skip : nat) (s : string) : list string :=
  match s with
  | EmptyString => [""]
  | String c r =>
      match skip with
      | S k => splitGo sep k r
      | O =>
          if prefix sep s
          then "" :: splitGo sep (String.length sep - 1) r
          else match splitGo sep 0 r with
               | h :: t => String c h :: t
               | [] => [String c ""]
               end
      end
  end.

Fixpoint codeUnits (s : string) : list string :=
  match s with
  | EmptyString => []
  | String c r => String c "" :: codeUnits r
  end.

(** [s.split(sep)] for a string separator: an empty separator splits into
    code units, any other one splits at its occurrences from left to
    right. *)
Definition split (s sep : string) : list string :=
  if sep =? "" then codeUnits s else splitGo sep 0 s.

(** [arr.includes(x)] on an array of strings. *)
Definition includes (arr : list string) (x : string) : bool :=
  existsb (String.eqb x) arr.

(** [arr.join(sep)] on an array of strings. *)
Fixpoint join (sep : string) (arr : list string) : string :=
  match arr with
  | [] => ""
  | [x] => x
  | x :: rest => x ++ sep ++ join sep rest
  end.

Fixpoint span (p : ascii -> bool) (s : string) : string * string :=
  match s with
  | EmptyString => ("", "")
  | String c r =>
      if p c then let (a, b) := span p r in (String c a, b) else ("", s)
  end.

Fixpoint repeatChar (c : ascii) (n : nat) : string :=
  match n with O => "" | S k => String c (repeatChar c k) end.

Fixpoint take (n : nat) (s : string) : string :=
  match n, s with
  | S k, String c r => String c (take k r)
  | _, _ => ""
  end.

Fixpoint drop (n : nat) (s : string) : string :=
  match n, s with
  | S k, String _ r => drop k r
  | _, _ => s
  end.

Fixpoint allChars (p : ascii -> bool) (s : string) : bool :=
  match s with
  | EmptyString => true
  | String c r => p c && allChars p r
  end.

End JsString.

(* ===================================================================== *)
(** ** Numbers: [Number(string)], [Number.isNaN], [Number::toString]     *)
(* ===================================================================== *)

Module JsNumber.
Import JsString.

(** [Finite neg m e] is the number [(-1)^neg * m * 10^e]. *)
Inductive t : Type :=
| NaN
| Infinity (negative : bool)
| Finite (negative : bool) (mantissa : N) (exponent : Z).

Definition isNaN (x : t) : bool :=
  match x with NaN => true | _ => false end.

Definition ofN (n : N) : t := Finite false n 0.

Definition isDigit (c : ascii) : bool :=
  let n := codeUnit c in ((48 <=? n) && (n <=? 57))%N.

(** The value of a digit in a base up to 16, if [c] is one. *)
Definition digitIn (base : N) (c : ascii) : option N :=
  let n := codeUnit c in
  let v :=
    if isDigit c then Some (n - 48)%N
    else if ((97 <=? n) && (n <=? 102))%N then Some (n - 87)%N
    else if ((65 <=? n) && (n <=? 70))%N then Some (n - 55)%N
    else None in
  match v with
  | Some d => if (d <? base)%N then Some d else None
  | None => None
  end.

Definition isDigitIn (base : N) (c : ascii) : bool :=
  match digitIn base c with Some _ => true | None => false end.

Fixpoint readDigits (base : N) (acc : N) (s : string) : N :=
  match s with
  | EmptyString => acc
  | String c r =>
      match digitIn base c with
      | Some d => readDigits base (acc * base + d)%N r
      | None => acc
      end
  end.

(** SignedInteger of an ExponentPart: an optional sign and at least one
    digit, up to the end of the text. *)
Definition signedInteger (s : string) : option Z :=
  let '(neg, digits) :=
    match s with
    | String "+" r => (false, r)
    | String "-" r => (true, r)
    | _ => (false, s)
    end in
  if (digits =? "") || negb (allChars isDigit digits) then None
  else let v := Z.of_N (readDigits 10 0 digits) in
       Some (if neg then (- v)%Z else v).

(** DecimalDigits, an optional fraction and an optional ExponentPart;
    [allowBareDot] admits the forms [5.] and [.5] of StrDecimalLiteral,
    which JSON numbers do not have. *)
Definition unsignedDecimal (allowBareDot : bool) (s : string)
  : option (N * Z) :=
  let '(ip, r1) := span isDigit s in
  let '(fp, r2) :=
    match r1 with
    | String "." r => let '(f, r') := span isDigit r in (Some f, r')
    | _ => (None, r1)
    end in
  let f := match fp with Some f => f | None => "" end in
  let shapeOk :=
    if allowBareDot then negb ((ip =? "") && (f =? ""))
    else negb (ip =? "")
         && match fp with Some f' => negb (f' =? "") | None => true end in
  if negb shapeOk then None
  else
    let ex :=
      match r2 with
      | EmptyString => Some 0%Z
      | String c r3 =>
          if (Ascii.eqb c "e" || Ascii.eqb c "E")%bool
          then signedInteger r3 else None
      end in
    match ex with
    | Some x =>
        Some (readDigits 10 0 (ip ++ f),
              (x - Z.of_nat (String.length f))%Z)
    | None => None
    end.

(** NonDecimalIntegerLiteral: [0x], [0o] or [0b] and at least one digit. *)
Definition nonDecimalInteger (s : string) : option N :=
  match s with
  | String "0" (String p digits) =>
      let base :=
        if (Ascii.eqb p "x" || Ascii.eqb p "X")%bool then Some 16%N
        else if (Ascii.eqb p "o" || Ascii.eqb p "O")%bool then Some 8%N
        else if (Ascii.eqb p "b" || Ascii.eqb p "B")%bool then Some 2%N
        else None in
      match base with
      | Some b =>
          if negb (digits =? "") && allChars (isDigitIn b) digits
          then Some (readDigits b 0 digits) else None
      | None => None
      end
  | _ => None
  end.

(** StringToNumber: the text is trimmed; the empty text is 0; a text that
    is no StringNumericLiteral is NaN. *)
Definition ofString (text : string) : t :=
  let s := trim text in
  if s =? "" then ofN 0
  else
    match nonDecimalInteger s with
    | Some n => ofN n
    | None =>
        let '(neg, body) :=
          match s with
          | String "+" r => (false, r)
          | String "-" r => (true, r)
          | _ => (false, s)
          end in
        if body =? "Infinity" then Infinity neg
        else match unsignedDecimal true body with
             | Some (m, e) => Finite neg m e
             | None => NaN
             end
    end.

Definition digitsOfN (n : N) : string :=
  NilZero.string_of_uint (N.to_uint n).

Fixpoint stripZerosEnd (s : string) : string :=
  match s with
  | EmptyString => EmptyString
  | String c r =>
      let r' := stripZerosEnd r in
      if Ascii.eqb c "0" && (r' =? "") then "" else String c r'
  end.

(** Number::toString in radix 10.  [s] holds the [k] significant digits
    and [n] is the position of the decimal point relative to them. *)
Definition toString (x : t) : string :=
  match x with
  | NaN => "NaN"
  | Infinity neg => if neg then "-Infinity" else "Infinity"
  | Finite neg m e =>
      if (m =? 0)%N then "0"
      else
        let all := digitsOfN m in
        let s := stripZerosEnd all in
        let k := String.length s in
        let n := (Z.of_nat (String.length all) + e)%Z in
        let body :=
          if ((Z.of_nat k <=? n) && (n <=? 21))%Z
          then s ++ repeatChar "0" (Z.to_nat n - k)
          else if ((0 <? n) && (n <=? 21))%Z
          then take (Z.to_nat n) s ++ "." ++ drop (Z.to_nat n) s
          else if ((-6 <? n) && (n <=? 0))%Z
          then "0." ++ repeatChar "0" (Z.to_nat (- n)) ++ s
          else
            let ex := (n - 1)%Z in
            let exs := (if (ex <? 0)%Z then "-" else "+")
                         ++ digitsOfN (Z.abs_N ex) in
            if (k =? 1)%nat then s ++ "e" ++ exs
            else take 1 s ++ "." ++ drop 1 s ++ "e" ++ exs in
        if neg then "-" ++ body else body
  end.

End JsNumber.

(* ===================================================================== *)
(** ** Values, [typeof], property access, [String(v)] and [Number(v)]    *)
(* ===================================================================== *)

#[warning="-register-all"] Inductive JsValue : Type :=
| JUndefined
| JNull
| JBool (b : bool)
| JNum (n : JsNumber.t)
| JStr (s : string)
| JArr (elements : list JsValue)
| JObj (props : list (string * JsValue)).

Definition Props : Type := list (string * JsValue).

(** [typeof v] *)
Definition typeof (v : JsValue) : string :=
  match v with
  | JUndefined => "undefined"
  | JNull => "object"
  | JBool _ => "boolean"
  | JNum _ => "number"
  | JStr _ => "string"
  | JArr _ => "object"
  | JObj _ => "object"
  end.

(** [v === undefined] and [v === null] *)
Definition isUndefined (v : JsValue) : bool :=
  match v with JUndefined => true | _ => false end.

Definition isNull (v : JsValue) : bool :=
  match v with JNull => true | _ => false end.

(** A property name is an array index when it is the canonical decimal text
    of an integer below 2^32 - 1. *)
Definition arrayIndex (key : string) : option N :=
  match key with
  | EmptyString => None
  | String c r =>
      if JsString.allChars JsNumber.isDigit key
         && (negb (Ascii.eqb c "0") || (r =? ""))
      then let n := JsNumber.readDigits 10 0 key in
           if (n <? 4294967295)%N then Some n else None
      else None
  end.

Fixpoint lookup (key : string) (ps : Props) : option JsValue :=
  match ps with
  | [] => None
  | (k, v) :: rest => if k =? key then Some v else lookup key rest
  end.

(** [key in obj] for an object or an array (own properties). *)
Definition hasProperty (key : string) (obj : JsValue) : bool :=
  match obj with
  | JObj ps => match lookup key ps with Some _ => true | None => false end
  | JArr es =>
      match arrayIndex key with
      | Some i => (i <? N.of_nat (List.length es))%N
      | None => key =? "length"
      end
  | _ => false
  end.

(** [obj[key]] for an object or an array (own properties). *)
Definition getProperty (obj : JsValue) (key : string) : JsValue :=
  match obj with
  | JObj ps => match lookup key ps with Some v => v | None => JUndefined end
  | JArr es =>
      match arrayIndex key with
      | Some i => nth (N.to_nat i) es JUndefined
      | None =>
          if key =? "length"
          then JNum (JsNumber.ofN (N.of_nat (List.length es)))
          else JUndefined
      end
  | _ => JUndefined
  end.

Fixpoint replaceProperty (key : string) (v : JsValue) (ps : Props) : Props :=
  match ps with
  | [] => []
  | (k, x) :: rest =>
      if k =? key then (k, v) :: rest
      else (k, x) :: replaceProperty key v rest
  end.

Fixpoint insertIndexed (i : N) (key : string) (v : JsValue) (ps : Props)
  : Props :=
  match ps with
  | [] => [(key, v)]
  | (k, x) :: rest =>
      match arrayIndex k with
      | Some j =>
          if (i <? j)%N then (key, v) :: ps
          else (k, x) :: insertIndexed i key v rest
      | None => (key, v) :: ps
      end
  end.

(** [obj[key] = v] on a plain object: an existing property keeps its place;
    a new integer key goes among the integer keys in ascending order; any
    other new key goes last. *)
Definition setProperty (ps : Props) (key : string) (v : JsValue) : Props :=
  match lookup key ps with
  | Some _ => replaceProperty key v ps
  | None =>
      match arrayIndex key with
      | Some i => insertIndexed i key v ps
      | None => (ps ++ [(key, v)])%list
      end
  end.

(** [String(v)].  An array joins its elements with a comma, [null] and
    [undefined] elements giving the empty text; a plain object gives
    ["[object Object]"]. *)
Fixpoint ToString (v : JsValue) : string :=
  match v with
  | JUndefined => "undefined"
  | JNull => "null"
  | JBool b => if b then "true" else "false"
  | JNum n => JsNumber.toString n
  | JStr s => s
  | JArr es =>
      JsString.join ","
        ((fix each (l : list JsValue) : list string :=
            match l with
            | [] => []
            | e :: rest =>
                (match e with
                 | JUndefined | JNull => ""
                 | _ => ToString e
                 end) :: each rest
            end) es)
  | JObj _ => "[object Object]"
  end.

(** [Number(v)] *)
Definition ToNumber (v : JsValue) : JsNumber.t :=
  match v with
  | JUndefined => JsNumber.NaN
  | JNull => JsNumber.ofN 0
  | JBool b => JsNumber.ofN (if b then 1 else 0)
  | JNum n => n
  | JStr s => JsNumber.ofString s
  | JArr _ | JObj _ => JsNumber.ofString (ToString v)
  end.

(* ===================================================================== *)
(** ** [JSON.parse]: a lexer and a stack parser, both by structural       *)
(**    recursion on their input                                           *)
(* ===================================================================== *)

Module JSON.
Import JsString.

Inductive Token : Type :=
| TLBrace | TRBrace | TLBracket | TRBracket | TColon | TComma
| TString (s : string)
| TNumber (n : JsNumber.t)
| TTrue | TFalse | TNull.

(** JSON white space: TAB, LF, CR and SP. *)
Definition isJsonWhiteSpace (c : ascii) : bool :=
  let n := codeUnit c in ((n =? 9) || (n =? 10) || (n =? 13) || (n =? 32))%N.

Definition hex4 (a b c d : ascii) : option N :=
  match JsNumber.digitIn 16 a, JsNumber.digitIn 16 b,
        JsNumber.digitIn 16 c, JsNumber.digitIn 16 d with
  | Some x, Some y, Some z, Some w => Some (((x * 16 + y) * 16 + z) * 16 + w)%N
  | _, _, _, _ => None
  end.

(** The character a two-character escape stands for. *)
Definition simpleEscape (e : ascii) : option ascii :=
  let n := codeUnit e in
  if (n =? 34)%N then Some e              (* quotation mark *)
  else if (n =? 92)%N then Some e         (* reverse solidus *)
  else if (n =? 47)%N then Some e         (* solidus *)
  else if Ascii.eqb e "b" then Some (ascii_of_N 8)
  else if Ascii.eqb e "f" then Some (ascii_of_N 12)
  else if Ascii.eqb e "n" then Some (ascii_of_N 10)
  else if Ascii.eqb e "r" then Some (ascii_of_N 13)
  else if Ascii.eqb e "t" then Some (ascii_of_N 9)
  else None.

Definition scanned (c : ascii) (width : nat) (rest : option (string * nat))
  : option (string * nat) :=
  match rest with
  | Some (s, n) => Some (String c s, width + n)
  | None => None
  end.

(** [scanString s] reads a string literal whose opening quotation mark has
    been passed: its content and the number of code units read, the closing
    quotation mark included.  A [\u] escape above U+00FF has no
    representation here and is refused. *)
Fixpoint scanString (s : string) : option (string * nat) :=
  match s with
  | EmptyString => None
  | String c r =>
      if (codeUnit c =? 34)%N then Some ("", 1)
      else if (codeUnit c =? 92)%N then
        match r with
        | EmptyString => None
        | String e r2 =>
            if Ascii.eqb e "u" then
              match r2 with
              | String h1 (String h2 (String h3 (String h4 r3))) =>
                  match hex4 h1 h2 h3 h4 with
                  | Some n =>
                      if (n <? 256)%N
                      then scanned (ascii_of_N n) 6 (scanString r3)
                      else None
                  | None => None
                  end
              | _ => None
              end
            else
              match simpleEscape e with
              | Some ch => scanned ch 2 (scanString r2)
              | None => None
              end
        end
      else if (codeUnit c <? 32)%N then None
      else scanned c 1 (scanString r)
  end.

Definition isNumberChar (c : ascii) : bool :=
  JsNumber.isDigit c
  || Ascii.eqb c "-" || Ascii.eqb c "+" || Ascii.eqb c "."
  || Ascii.eqb c "e" || Ascii.eqb c "E".

(** A JSON number: an optional minus sign, an integer part without leading
    zeros, an optional fraction with digits, an optional exponent. *)
Definition jsonNumber (lexeme : string) : option JsNumber.t :=
  let '(neg, body) :=
    match lexeme with
    | String "-" r => (true, r)
    | _ => (false, lexeme)
    end in
  let '(ip, _) := span JsNumber.isDigit body in
  let leadingZero :=
    match ip with
    | String "0" (String _ _) => true
    | _ => false
    end in
  if leadingZero then None
  else match JsNumber.unsignedDecimal false body with
       | Some (m, e) => Some (JsNumber.Finite neg m e)
       | None => None
       end.

Definition isLetter (c : ascii) : bool :=
  let n := codeUnit c in
  ((65 <=? n) && (n <=? 90) || (97 <=? n) && (n <=? 122))%N.

(** The token that starts at the head of [s], with its width. *)
Definition tokenAt (s : string) : option (Token * nat) :=
  match s with
  | EmptyString => None
  | String c r =>
      if Ascii.eqb c "{" then Some (TLBrace, 1)
      else if Ascii.eqb c "}" then Some (TRBrace, 1)
      else if Ascii.eqb c "[" then Some (TLBracket, 1)
      else if Ascii.eqb c "]" then Some (TRBracket, 1)
      else if Ascii.eqb c ":" then Some (TColon, 1)
      else if Ascii.eqb c "," then Some (TComma, 1)
      else if (codeUnit c =? 34)%N then
        match scanString r with
        | Some (content, n) => Some (TString content, S n)
        | None => None
        end
      else if isNumberChar c then
        let '(lexeme, _) := span isNumberChar s in
        match jsonNumber lexeme with
        | Some n => Some (TNumber n, String.length lexeme)
        | None => None
        end
      else if isLetter c then
        let '(word, _) := span isLetter s in
        if word =? "true" then Some (TTrue, 4)
        else if word =? "false" then Some (TFalse, 5)
        else if word =? "null" then Some (TNull, 4)
        else None
      else None
  end.

(** [tokens skip s]: the tokens of [s]; [skip] counts the code units of the
    last token that are still to be passed over. *)
Fixpoint tokens (skip : nat) (s : string) : option (list Token) :=
  match s with
  | EmptyString => Some []
  | String c r =>
      match skip with
      | S k => tokens k r
      | O =>
          if isJsonWhiteSpace c then tokens 0 r
          else match tokenAt s with
               | Some (t, width) =>
                   match tokens (width - 1) r with
                   | Some ts => Some (t :: ts)
                   | None => None
                   end
               | None => None
               end
      end
  end.

(** A container under construction: an array with the elements read so far
    (last one first), or an object with its properties so far and the key
    whose value is awaited. *)
Inductive Frame : Type :=
| FArr (done : list JsValue)
| FObj (done : Props) (key : option string).

Inductive Mode : Type :=
| AtValue          (* a value must follow *)
| AtFirst          (* just inside a bracket: first item or the closer *)
| AtKey            (* after a comma in an object *)
| AtColon          (* after a key *)
| AtAfter          (* after an item: comma or the closer *)
| AtEnd (v : JsValue).  (* the document's value is complete *)

Definition State : Type := (list Frame * Mode)%type.

(** A finished value goes to the container on top of the stack, or is the
    document. *)
Definition deliver (v : JsValue) (stack : list Frame) : option State :=
  match stack with
  | [] => Some ([], AtEnd v)
  | FArr done :: st => Some (FArr (v :: done) :: st, AtAfter)
  | FObj done (Some k) :: st => Some (FObj (setProperty done k v) None :: st, AtAfter)
  | FObj _ None :: _ => None
  end.

Definition startValue (t : Token) (stack : list Frame) : option State :=
  match t with
  | TString s => deliver (JStr s) stack
  | TNumber n => deliver (JNum n) stack
  | TTrue => deliver (JBool true) stack
  | TFalse => deliver (JBool false) stack
  | TNull => deliver JNull stack
  | TLBracket => Some (FArr [] :: stack, AtFirst)
  | TLBrace => Some (FObj [] None :: stack, AtFirst)
  | _ => None
  end.

Definition step (st : State) (t : Token) : option State :=
  let '(stack, mode) := st in
  match mode, stack, t with
  | AtValue, _, _ => startValue t stack
  | AtFirst, FArr _ :: rest, TRBracket => deliver (JArr []) rest
  | AtFirst, FArr _ :: _, _ => startValue t stack
  | AtFirst, FObj _ _ :: rest, TRBrace => deliver (JObj []) rest
  | AtFirst, FObj done _ :: rest, TString k =>
      Some (FObj done (Some k) :: rest, AtColon)
  | AtKey, FObj done _ :: rest, TString k =>
      Some (FObj done (Some k) :: rest, AtColon)
  | AtColon, _, TColon => Some (stack, AtValue)
  | AtAfter, FArr _ :: _, TComma => Some (stack, AtValue)
  | AtAfter, FArr done :: rest, TRBracket => deliver (JArr (rev done)) rest
  | AtAfter, FObj _ _ :: _, TComma => Some (stack, AtKey)
  | AtAfter, FObj done _ :: rest, TRBrace => deliver (JObj done) rest
  | _, _, _ => None
  end.

Fixpoint run (st : State) (ts : list Token) : option JsValue :=
  match ts with
  | [] => match st with
          | ([], AtEnd v) => Some v
          | _ => None
          end
  | t :: rest =>
      match step st t with
      | Some st' => run st' rest
      | None => None
      end
  end.

(** [parse text] is the value of a well-formed JSON text, [None] when
    [JSON.parse] raises a SyntaxError. *)
Definition parse (text : string) : option JsValue :=
  match tokens 0 text with
  | Some ts => run ([], AtValue) ts
  | None => None
  end.

End JSON.

(** JSON texts are written below with apostrophes in place of quotation
    marks; [jsonText] puts the quotation marks back. *)
Fixpoint jsonText (s : string) : string :=
  match s with
  | EmptyString => EmptyString
  | String c r =>
      String (if (JsString.codeUnit c =? 39)%N then ascii_of_N 34 else c)
             (jsonText r)
  end.

(* ===================================================================== *)
(** ** Exceptions and the validator callback                             *)
(* ===================================================================== *)

(** An [Error] object: the name of its class and its message. *)
Record JsError : Type := mkError { errorName : string; message : string }.

Definition newError (m : string) : JsError := mkError "Error" m.
Definition newTypeError (m : string) : JsError := mkError "TypeError" m.
Definition newSyntaxError (m : string) : JsError := mkError "SyntaxError" m.

(** What a [throw] carries: an instance of [Error], or any other value. *)
Inductive Thrown : Type :=
| ThrownError (e : JsError)
| ThrownValue (v : JsValue).

Inductive Result (A : Type) : Type :=
| Ok (a : A)
| Throw (t : Thrown).
Arguments Ok {A} a.
Arguments Throw {A} t.

(** The validator callback: [None] when it returns, [Some t] when it
    throws [t].  It is described by what it throws only: a callback that
    writes to the array or object it is handed, or to the input map, is
    outside the callbacks covered. *)
Definition Validator : Type := string -> JsValue -> option Thrown.

(** One invocation of the validator: the key and the value it was given. *)
Definition Call : Type := (string * JsValue)%type.

(** A computation that may throw and that records the validator
    invocations it makes, in order. *)
Definition Run (A : Type) : Type := (list Call * Result A)%type.

Definition ret {A} (a : A) : Run A := ([], Ok a).
Definition throw {A} (e : JsError) : Run A := ([], Throw (ThrownError e)).
Definition lift {A} (r : Result A) : Run A := ([], r).

Definition bind {A B} (m : Run A) (f : A -> Run B) : Run B :=
  match m with
  | (calls, Ok a) => let '(calls', r) := f a in ((calls ++ calls')%list, r)
  | (calls, Throw t) => (calls, Throw t)
  end.

Notation "x <- m ;; k" := (bind m (fun x => k))
  (at level 61, m at next level, right associativity).
Notation "m ;; k" := (bind m (fun _ => k))
  (at level 61, right associativity).

Definition callsOf {A} (m : Run A) : list Call := fst m.
Definition resultOf {A} (m : Run A) : Result A := snd m.

(** [(error instanceof Error) ? error.message : String(error)] *)
Definition describe (t : Thrown) : string :=
  match t with
  | ThrownError e => message e
  | ThrownValue v => ToString v
  end.

(* ===================================================================== *)
(** ** The schema and its options                                         *)
(* ===================================================================== *)

Inductive ArrayType : Type := AString | ANumber | ABoolean.

Definition arrayTypeName (t : ArrayType) : string :=
  match t with
  | AString => "string"
  | ANumber => "number"
  | ABoolean => "boolean"
  end.

Record Options : Type := mkOptions {
  defaults : option Props;
  validator : option Validator;
  delimiter : option string;
  arrayTypes : option (list (string * ArrayType))
}.

Record TinyEnvSchema : Type := mkSchema {
  keys : list string;
  options : option Options
}.

(** The result of the Standard Schema [validate] function. *)
Record Issue : Type := mkIssue { issueMessage : string }.

Inductive StandardResult : Type :=
| Success (value : JsValue)
| Failure (issues : list Issue).

(** [this.options?.defaults?.[key]] *)
Definition defaultOf (self : TinyEnvSchema) (key : string) : JsValue :=
  match options self with
  | Some o =>
      match defaults o with
      | Some d => getProperty (JObj d) key
      | None => JUndefined
      end
  | None => JUndefined
  end.

(** The property names every plain object inherits from
    [Object.prototype]: those of ECMAScript and of its Annex B, which
    Node.js has. *)
Definition objectPrototypeNames : list string :=
  ["constructor"; "hasOwnProperty"; "isPrototypeOf"; "propertyIsEnumerable";
   "toLocaleString"; "toString"; "valueOf"; "__proto__";
   "__defineGetter__"; "__defineSetter__"; "__lookupGetter__";
   "__lookupSetter__"].

Definition inheritedName (key : string) : bool :=
  existsb (String.eqb key) objectPrototypeNames.

(** [key in obj] for a plain object [obj] given by its own properties: an
    own property, or a name inherited from [Object.prototype]. *)
Definition inPlainObject (key : string) (ps : Props) : bool :=
  hasProperty key (JObj ps) || inheritedName key.

(** [key in (this.options?.defaults ?? {})] *)
Definition inDefaults (self : TinyEnvSchema) (key : string) : bool :=
  match options self with
  | Some o =>
      match defaults o with
      | Some d => inPlainObject key d
      | None => inPlainObject key []
      end
  | None => inPlainObject key []
  end.

Fixpoint assoc {A} (key : string) (l : list (string * A)) : option A :=
  match l with
  | [] => None
  | (k, a) :: rest => if k =? key then Some a else assoc key rest
  end.

(** [this.options?.arrayTypes?.[key]] *)
Definition arrayTypeOf (self : TinyEnvSchema) (key : string)
  : option ArrayType :=
  match options self with
  | Some o =>
      match arrayTypes o with
      | Some m => assoc key m
      | None => None
      end
  | None => None
  end.

(** [this.options?.delimiter ?? ','] *)
Definition delimiterOf (self : TinyEnvSchema) : string :=
  match options self with
  | Some o => match delimiter o with Some d => d | None => "," end
  | None => ","
  end.

(** [this.options?.validator] *)
Definition validatorOf (self : TinyEnvSchema) : option Validator :=
  match options self with
  | Some o => validator o
  | None => None
  end.

(* ===================================================================== *)
(** ** The engine: [convertToType], [validateObjectShape],                *)
(**    [parseAndValidate], [validate] and [tinyenv]                       *)
(* ===================================================================== *)

Definition truthyWords : list string := ["true"; "1"; "yes"].
Definition falsyWords : list string := ["false"; "0"; "no"].

(** [convertToType(value, type, key)] *)
Definition convertToType (value type key : string) : Result JsValue :=
  if type =? "number" then
    let num := JsNumber.ofString value in
    if JsNumber.isNaN num
    then Throw (ThrownError (newTypeError
           ("Failed to parse " ++ key ++ " array element as number: " ++ value)))
    else Ok (JNum num)
  else if type =? "boolean" then
    let str := JsString.toLowerCase value in
    if JsString.includes truthyWords str then Ok (JBool true)
    else if JsString.includes falsyWords str then Ok (JBool false)
    else Throw (ThrownError (newError
           ("Failed to parse " ++ key ++ " array element as boolean: " ++ value)))
  else Ok (JStr value).

(** [elements.map((el) => convertToType(el, type, key))]: the elements are
    converted from left to right and the first failure ends the call. *)
Fixpoint mapConvert (elements : list string) (type key : string)
  : Result (list JsValue) :=
  match elements with
  | [] => Ok []
  | el :: rest =>
      match convertToType el type key with
      | Ok v =>
          match mapConvert rest type key with
          | Ok vs => Ok (v :: vs)
          | Throw t => Throw t
          end
      | Throw t => Throw t
      end
  end.

(** [key + (path.length > 0 ? '.' + path.join('.') : '')] *)
Definition dotted (key : string) (path : list string) : string :=
  key ++ (if (0 <? List.length path)%nat
          then "." ++ JsString.join "." path else "").

(** [for (const prop in obj) body] over a plain object, given as its
    properties, and over an array, given as its elements from index [i]. *)
Definition forIn (body : string -> JsValue -> Result unit)
  : Props -> Result unit :=
  fix go (ps : Props) : Result unit :=
    match ps with
    | [] => Ok tt
    | (prop, dv) :: rest =>
        match body prop dv with
        | Ok _ => go rest
        | Throw t => Throw t
        end
    end.

Definition forInArray (body : string -> JsValue -> Result unit)
  : nat -> list JsValue -> Result unit :=
  fix go (i : nat) (es : list JsValue) : Result unit :=
    match es with
    | [] => Ok tt
    | dv :: rest =>
        match body (JsNumber.digitsOfN (N.of_nat i)) dv with
        | Ok _ => go (S i) rest
        | Throw t => Throw t
        end
    end.

(** [validateObjectShape(value, defaultValue, key, path)] *)
Fixpoint validateObjectShape (value defaultValue : JsValue) (key : string)
    (path : list string) {struct defaultValue} : Result unit :=
  if negb (typeof value =? typeof defaultValue) then
    Throw (ThrownError (newTypeError
      ("Invalid type for " ++ dotted key path ++ ": expected "
         ++ typeof defaultValue ++ ", got " ++ typeof value)))
  else if (typeof value =? "object") && negb (isNull value) then
    let body := fun (prop : string) (dv : JsValue) =>
      if negb (hasProperty prop value) && negb (isUndefined dv) then
        Throw (ThrownError (newError
          ("Missing required property " ++ dotted key path ++ "." ++ prop)))
      else if hasProperty prop value then
        validateObjectShape (getProperty value prop) dv key
          (path ++ [prop])%list
      else Ok tt in
    match defaultValue with
    | JObj dps => forIn body dps
    | JArr des => forInArray body 0 des
    | _ => Ok tt
    end
  else Ok tt.

Section Engine.

(** The message of the SyntaxError that [JSON.parse] raises for a given
    malformed text. *)
Variable syntaxErrorMessage : string -> string.

(** [JSON.parse(text)] *)
Definition JSON_parse (text : string) : Result JsValue :=
  match JSON.parse text with
  | Some v => Ok v
  | None => Throw (ThrownError (newSyntaxError (syntaxErrorMessage text)))
  end.

(** The [try] block of the object branch, lines 166-175: parse the text,
    check the shape, and rethrow whatever either raises under the heading
    "Failed to parse ... as JSON". *)
Definition parseObject (key : string) (value defaultValue : JsValue)
  : Result JsValue :=
  let attempt :=
    match JSON_parse (ToString value) with
    | Ok parsed =>
        match validateObjectShape parsed defaultValue key [] with
        | Ok _ => Ok parsed
        | Throw t => Throw t
        end
    | Throw t => Throw t
    end in
  match attempt with
  | Ok parsed => Ok parsed
  | Throw error =>
      Throw (ThrownError (newError
        ("Failed to parse " ++ key ++ " as JSON: " ++ describe error)))
  end.

(** The array branch, lines 143-163. *)
Definition parseArray (key delim : string) (value : JsValue)
    (defaultElements : list JsValue) (arrayType : option ArrayType)
  : Result JsValue :=
  let elements :=
    filter (fun el => negb (el =? ""))
      (map JsString.trim (JsString.split (ToString value) delim)) in
  match arrayType with
  | Some t =>
      match mapConvert elements (arrayTypeName t) key with
      | Ok vs => Ok (JArr vs)
      | Throw e => Throw e
      end
  | None =>
      if (0 <? List.length defaultElements)%nat then
        let elementType := typeof (nth 0 defaultElements JUndefined) in
        match mapConvert elements elementType key with
        | Ok vs => Ok (JArr vs)
        | Throw e => Throw e
        end
      else Ok (JArr (map JStr elements))
  end.

(** The type dispatch, lines 114-183: from the selected [value] and the
    default to [parsedValue]. *)
Definition convertValue (key delim : string) (value defaultValue : JsValue)
    (arrayType : option ArrayType) : Result JsValue :=
  if isUndefined defaultValue then Ok (JStr (ToString value))
  else
    let defaultType := typeof defaultValue in
    if defaultType =? "number" then
      let num := ToNumber value in
      if JsNumber.isNaN num
      then Throw (ThrownError (newTypeError
             ("Failed to parse " ++ key ++ " as number: " ++ ToString value)))
      else Ok (JNum num)
    else if defaultType =? "boolean" then
      let str := JsString.toLowerCase (ToString value) in
      if JsString.includes truthyWords str then Ok (JBool true)
      else if JsString.includes falsyWords str then Ok (JBool false)
      else Throw (ThrownError (newError
             ("Failed to parse " ++ key ++ " as boolean: " ++ ToString value)))
    else if defaultType =? "object" then
      match defaultValue with
      | JArr defaultElements =>            (* Array.isArray(defaultValue) *)
          parseArray key delim value defaultElements arrayType
      | _ => parseObject key value defaultValue
      end
    else Ok (JStr (ToString value)).

(** The optional validator, lines 186-195. *)
Definition runValidator (self : TinyEnvSchema) (key : string)
    (parsedValue : JsValue) : Run unit :=
  match validatorOf self with
  | Some check =>
      ([(key, parsedValue)],
       match check key parsedValue with
       | None => Ok tt
       | Some (ThrownError e) => Throw (ThrownError e)
       | Some (ThrownValue v) =>
           Throw (ThrownError (newError
             ("Validation failed for " ++ key ++ ": " ++ ToString v)))
       end)
  | None => ret tt
  end.

(** [rawValue === undefined || isEmpty] with
    [isEmpty = typeof rawValue === 'string' && rawValue.trim() === ''] *)
Definition isEmpty (rawValue : JsValue) : bool :=
  match rawValue with
  | JStr s => JsString.trim s =? ""
  | _ => false
  end.

(** [isEmpty || rawValue === undefined ? defaultValue : rawValue] *)
Definition selectValue (rawValue defaultValue : JsValue) : JsValue :=
  if isEmpty rawValue || isUndefined rawValue then defaultValue else rawValue.

(** The body of the loop over the keys, lines 95-195, up to the converted
    and validated [parsedValue]. *)
Definition processKey (self : TinyEnvSchema) (envVars : JsValue)
    (delim key : string) : Run JsValue :=
  let rawValue := getProperty envVars key in
  let defaultValue := defaultOf self key in
  let arrayType := arrayTypeOf self key in
  if isUndefined defaultValue && inDefaults self key then
    throw (newError
      ("Invalid default value for key " ++ key ++ ": undefined is not allowed"))
  else if (isUndefined rawValue || isEmpty rawValue)
          && isUndefined defaultValue then
    throw (newError ("Missing environment variable: " ++ key))
  else
    let value := selectValue rawValue defaultValue in
    parsedValue <- lift (convertValue key delim value defaultValue arrayType) ;;
    runValidator self key parsedValue ;;
    ret parsedValue.

(** The loop: [env[key] = parsedValue] for each key in turn. *)
Fixpoint processKeys (self : TinyEnvSchema) (envVars : JsValue)
    (delim : string) (ks : list string) (env : Props) : Run Props :=
  match ks with
  | [] => ret env
  | key :: rest =>
      parsedValue <- processKey self envVars delim key ;;
      processKeys self envVars delim rest (setProperty env key parsedValue)
  end.

(** [Object.freeze(env)]: the record is a value here, so freezing it leaves
    it as it is. *)
Definition freeze (env : Props) : JsValue := JObj env.

(** [parseAndValidate(value)] *)
Definition parseAndValidate (self : TinyEnvSchema) (value : JsValue)
  : Run JsValue :=
  if negb (typeof value =? "object") || isNull value then
    throw (newError "Input must be an object")
  else
    let delim := delimiterOf self in
    let envVars := value in
    env <- processKeys self envVars delim (keys self) [] ;;
    ret (freeze env).

(** [this['~standard'].validate(value)] together with the validator
    invocations it made. *)
Definition validate (self : TinyEnvSchema) (value : JsValue)
  : list Call * StandardResult :=
  match parseAndValidate self value with
  | (calls, Ok result) => (calls, Success result)
  | (calls, Throw error) => (calls, Failure [mkIssue (describe error)])
  end.

(** [tinyenv(keys, options)], reading [processEnv] for [process.env]. *)
Definition tinyenv (ks : list string) (opts : option Options)
    (processEnv : JsValue) : Run JsValue :=
  let schema := mkSchema ks opts in
  match validate schema processEnv with
  | (calls, Failure issues) =>
      (calls,
       Throw (ThrownError (newError
         (match issues with
          | i :: _ => issueMessage i
          | [] => "Validation failed"
          end))))
  | (calls, Success v) => (calls, Ok v)
  end.

End Engine.

(* ===================================================================== *)
(** ** Vocabulary for the properties                                      *)
(* ===================================================================== *)

(** The computation returns normally. *)
Definition succeeds {A : Type} (m : Run A) : Prop :=
  exists a, resultOf m = Ok a.

(** [typeof v === 'object' && v !== null] *)
Definition isNonNullObject (v : JsValue) : bool :=
  (typeof v =? "object") && negb (isNull v).

(** A raw value that counts as absent: [undefined], or a string made of
    white space only (the empty string included). *)
Definition absentOrBlank (rawValue : JsValue) : Prop :=
  rawValue = JUndefined
  \/ exists s, rawValue = JStr s
               /\ JsString.allChars JsString.isWhiteSpace s = true.

(** [key] is reached by the loop of [self] on [envVars]: it is declared, and
    the keys declared before it are processed without a failure. *)
Definition reached (syntaxErrorMessage : string -> string)
    (self : TinyEnvSchema) (envVars : JsValue) (key : string) : Prop :=
  exists pre post,
    keys self = (pre ++ key :: post)%list
    /\ Forall (fun k => succeeds (processKey syntaxErrorMessage self envVars
                                    (delimiterOf self) k)) pre.

(** The entry of [key] in the defaults mapping, if it has one. *)
Definition declaredDefault (self : TinyEnvSchema) (key : string)
  : option JsValue :=
  match options self with
  | Some o =>
      match defaults o with
      | Some d => lookup key d
      | None => None
      end
  | None => None
  end.

(** The properties a [for ... in] loop visits, with their values: those of a
    plain object, or the indices of an array from [i] on. *)
Fixpoint indexed (i : nat) (es : list JsValue) : Props :=
  match es with
  | [] => []
  | e :: rest => (JsNumber.digitsOfN (N.of_nat i), e) :: indexed (S i) rest
  end.

Definition ownProperties (v : JsValue) : Props :=
  match v with
  | JObj ps => ps
  | JArr es => indexed 0 es
  | _ => []
  end.

(** The body of the loop of [validateObjectShape] for the property [prop]
    of the default, whose value there is [dv]. *)
Definition shapeBody (value : JsValue) (key : string) (path : list string)
    (prop : string) (dv : JsValue) : Result unit :=
  if negb (hasProperty prop value) && negb (isUndefined dv) then
    Throw (ThrownError (newError
      ("Missing required property " ++ dotted key path ++ "." ++ prop)))
  else if hasProperty prop value then
    validateObjectShape (getProperty value prop) dv key (path ++ [prop])%list
  else Ok tt.

(** A property of the default raises nothing: the value has it and the
    check of the two property values under the extended path succeeds, or
    the value lacks it and the default holds [undefined] for it. *)
Definition propertyPasses (value : JsValue) (key : string)
    (path : list string) (entry : string * JsValue) : Prop :=
  (hasProperty (fst entry) value = true
   /\ validateObjectShape (getProperty value (fst entry)) (snd entry) key
        (path ++ [fst entry])%list = Ok tt)
  \/ (hasProperty (fst entry) value = false /\ snd entry = JUndefined).

(** The array rule in the spec's words: the text is split on the delimiter,
    each piece is trimmed, and the pieces that are empty after trimming are
    dropped. *)
Definition arrayElements (text delim : string) : list string :=
  filter (fun piece => negb (piece =? ""))
    (map JsString.trim (JsString.split text delim)).

(** The element type: the one declared for the key if any, otherwise the
    runtime type of the default array's first element if it has one,
    otherwise string. *)
Definition elementRule (arrayType : option ArrayType)
    (defaultElements : list JsValue) : string :=
  match arrayType with
  | Some t => arrayTypeName t
  | None =>
      match defaultElements with
      | first :: _ => typeof first
      | [] => "string"
      end
  end.

(** The scalar rule of an element type in the spec's words: a number is read
    by numeric-string parsing and fails on not-a-number; a boolean is read
    from the lower-cased text, "true", "1", "yes" giving true and "false",
    "0", "no" giving false, and fails otherwise; any other type leaves the
    text as it is.  [None] is a failure. *)
Definition scalarRule (rule el : string) : option JsValue :=
  if rule =? "number" then
    match JsNumber.ofString el with
    | JsNumber.NaN => None
    | n => Some (JNum n)
    end
  else if rule =? "boolean" then
    let lowered := JsString.toLowerCase el in
    if existsb (String.eqb lowered) ["true"; "1"; "yes"] then Some (JBool true)
    else if existsb (String.eqb lowered) ["false"; "0"; "no"]
    then Some (JBool false)
    else None
  else Some (JStr el).


(** The inputs of the object tests of the repository: the default
    [{ db: { host: '', port: 0 } }] for the key CONFIG and three JSON texts
    for it. *)
Definition configDefault : JsValue :=
  JObj [("db", JObj [("host", JStr ""); ("port", JNum (JsNumber.ofN 0))])].

Definition configSchema : TinyEnvSchema :=
  mkSchema ["CONFIG"]
    (Some (mkOptions (Some [("CONFIG", configDefault)]) None None None)).

Definition configEnv (text : string) : JsValue :=
  JObj [("CONFIG", JStr (jsonText text))].

Definition missingPortText : string := "{'db':{'host':'localhost'}}".
Definition textPortText : string := "{'db':{'host':'localhost','port':'5432'}}".
Definition goodConfigText : string := "{'db':{'host':'localhost','port':5432}}".

(** A schema with one key and one default, and an input map with one
    entry. *)
Definition schemaOf (key : string) (defaultValue : JsValue) : TinyEnvSchema :=
  mkSchema [key]
    (Some (mkOptions (Some [(key, defaultValue)]) None None None)).

Definition envOf (key value : string) : JsValue := JObj [(key, JStr value)].

(** The validator of the repository's port test, and one that throws a
    string. *)
Definition portValidator : Validator :=
  fun key value =>
    if key =? "PORT" then
      match value with
      | JNum (JsNumber.Finite false m 0) =>
          if ((m <? 1024) || (65535 <? m))%N
          then Some (ThrownError
                       (newError "Port must be between 1024 and 65535"))
          else None
      | _ => None
      end
    else None.

Definition stringThrowingValidator : Validator :=
  fun _ _ => Some (ThrownValue (JStr "rejected")).

Definition withValidator (check : Validator) (self : TinyEnvSchema)
  : TinyEnvSchema :=
  mkSchema (keys self)
    (match options self with
     | Some o =>
         Some (mkOptions (defaults o) (Some check) (delimiter o) (arrayTypes o))
     | None => Some (mkOptions None (Some check) None None)
     end).

(** A sample engine message, for running the engine on concrete inputs. *)
Definition sampleSyntaxErrorMessage (text : string) : string :=
  "Unexpected token in JSON".

(* ===================================================================== *)
(** ** Vocabulary for the further properties                              *)
(* ===================================================================== *)

(** An array element that survives the array branch unchanged under the
    default delimiter: not empty, without surrounding white space, without
    a comma. *)
Definition cleanElement (s : string) : bool :=
  negb (s =? "") && (JsString.trim s =? s)
  && JsString.allChars (fun c => negb (Ascii.eqb c ",")) s.

(** Property names are pairwise distinct. *)
Fixpoint distinctNames (ps : Props) : bool :=
  match ps with
  | [] => true
  | (k, _) :: rest =>
      match lookup k rest with
      | Some _ => false
      | None => distinctNames rest
      end
  end.

(** A value that a JavaScript program can build: in every object, at any
    depth, the property names are pairwise distinct, and every array is
    shorter than 2^32 - 1. *)
Fixpoint wellFormed (v : JsValue) : bool :=
  match v with
  | JArr es =>
      (N.of_nat (List.length es) <? 4294967295)%N && forallb wellFormed es
  | JObj ps =>
      distinctNames ps && forallb (fun entry => wellFormed (snd entry)) ps
  | _ => true
  end.


(* ===================================================================== *)
(** ** The built-ins on sample inputs                                     *)
(* ===================================================================== *)

Example trim_blank : JsString.trim "   " = "". Proof. reflexivity. Qed.
Example trim_inner : JsString.trim "  a b  " = "a b". Proof. reflexivity. Qed.
Example lower_yes : JsString.toLowerCase "Yes" = "yes". Proof. reflexivity. Qed.
Example split_list :
  JsString.split "a, b ,c" "," = ["a"; " b "; "c"].
Proof. reflexivity. Qed.
Example split_trailing : JsString.split "a,," "," = ["a"; ""; ""].
Proof. reflexivity. Qed.
Example split_long_sep : JsString.split "a::b:c::" "::" = ["a"; "b:c"; ""].
Proof. reflexivity. Qed.
Example split_empty_input : JsString.split "" "," = [""].
Proof. reflexivity. Qed.
Example split_empty_sep : JsString.split "ab" "" = ["a"; "b"].
Proof. reflexivity. Qed.
Example number_8080 : JsNumber.ofString "8080" = JsNumber.Finite false 8080 0.
Proof. reflexivity. Qed.
Example number_pi : JsNumber.ofString " 3.14 " = JsNumber.Finite false 314 (-2).
Proof. reflexivity. Qed.
Example number_exp : JsNumber.ofString "-1.5e3" = JsNumber.Finite true 15 2.
Proof. reflexivity. Qed.
Example number_hex : JsNumber.ofString "0x1F" = JsNumber.Finite false 31 0.
Proof. reflexivity. Qed.
Example number_blank : JsNumber.ofString "" = JsNumber.Finite false 0 0.
Proof. reflexivity. Qed.
Example number_word : JsNumber.ofString "not-a-number" = JsNumber.NaN.
Proof. reflexivity. Qed.
Example number_list : JsNumber.ofString "1,2" = JsNumber.NaN.
Proof. reflexivity. Qed.
Example number_dots :
  (JsNumber.ofString "5.", JsNumber.ofString ".5", JsNumber.ofString ".")
  = (JsNumber.Finite false 5 0, JsNumber.Finite false 5 (-1), JsNumber.NaN).
Proof. reflexivity. Qed.
Example number_print :
  map JsNumber.toString
    [JsNumber.Finite false 8080 0; JsNumber.Finite false 314 (-2);
     JsNumber.Finite true 15 2; JsNumber.Finite false 5 (-7);
     JsNumber.Finite false 1 21; JsNumber.Finite false 12 (-9);
     JsNumber.Finite false 0 3; JsNumber.NaN]
  = ["8080"; "3.14"; "-1500"; "5e-7"; "1e+21"; "1.2e-8"; "0"; "NaN"].
Proof. reflexivity. Qed.
Example typeof_null : typeof JNull = "object". Proof. reflexivity. Qed.
Example string_of_array :
  ToString (JArr [JNum (JsNumber.ofN 1); JNull; JStr "a"; JArr [JBool true]])
  = "1,,a,true".
Proof. reflexivity. Qed.
Example string_of_object : ToString (JObj [("a", JNull)]) = "[object Object]".
Proof. reflexivity. Qed.
Example number_of_array :
  ToNumber (JArr [JStr "5"]) = JsNumber.Finite false 5 0.
Proof. reflexivity. Qed.
Example set_orders_integer_keys :
  setProperty (setProperty (setProperty [] "b" JNull) "10" JNull) "2" JNull
  = [("2", JNull); ("10", JNull); ("b", JNull)].
Proof. reflexivity. Qed.
Example set_keeps_place :
  setProperty [("a", JNull); ("b", JNull)] "a" (JBool true)
  = [("a", JBool true); ("b", JNull)].
Proof. reflexivity. Qed.
Example array_has : 
  (hasProperty "1" (JArr [JNull; JNull]), hasProperty "2" (JArr [JNull; JNull]),
   hasProperty "01" (JArr [JNull; JNull]), hasProperty "length" (JArr []))
  = (true, false, false, true).
Proof. reflexivity. Qed.
Example json_nested :
  JSON.parse (jsonText "{'db':{'host':'localhost','port':5432}}")
  = Some (JObj [("db", JObj [("host", JStr "localhost");
                             ("port", JNum (JsNumber.Finite false 5432 0))])]).
Proof. reflexivity. Qed.
Example json_scalars :
  map JSON.parse ["null"; " true "; "-0.5e1"; jsonText "'a\u0041\n'"; "[]"; "{}"]
  = [Some JNull; Some (JBool true); Some (JNum (JsNumber.Finite true 5 0));
     Some (JStr (String "a" (String "A" (String (ascii_of_N 10) ""))));
     Some (JArr []); Some (JObj [])].
Proof. reflexivity. Qed.
Example json_array :
  JSON.parse (jsonText "[1, [2, {'a': []}], 'x']")
  = Some (JArr [JNum (JsNumber.ofN 1);
                JArr [JNum (JsNumber.ofN 2); JObj [("a", JArr [])]];
                JStr "x"]).
Proof. reflexivity. Qed.
Example json_key_order :
  JSON.parse (jsonText "{'b':1,'2':null,'b':true,'1':null}")
  = Some (JObj [("1", JNull); ("2", JNull); ("b", JBool true)]).
Proof. reflexivity. Qed.
Example json_malformed :
  map JSON.parse
    ["[object Object]"; "invalid-json"; ""; "01"; "1."; "+1"; "[1,]"; "{,}";
     jsonText "{'a' 1}"; jsonText "{'a':1,}"; "[1 2]"; "1 2"; "tru"; "nullx";
     jsonText "'abc"; jsonText "{'a':1"; "]"; "--1"; "1e"; ".5"; "{a:1}"]
  = repeat None 21.
Proof. reflexivity. Qed.

(* ===================================================================== *)
(** ** Facts about the built-ins                                          *)
(* ===================================================================== *)


Lemma trimStart_whitespace (s : string) :
  JsString.allChars JsString.isWhiteSpace s = true ->
  JsString.trimStart s = "".
Proof.
  induction s as [| c r IH]; simpl; [reflexivity |].
  intros H. apply andb_true_iff in H as [Hc Hr]. rewrite Hc. now apply IH.
Qed.

Lemma trimEnd_nonblank (s : string) :
  JsString.allChars JsString.isWhiteSpace s = false ->
  JsString.trimEnd s <> "".
Proof.
  induction s as [| c r IH]; simpl; [discriminate |].
  destruct (JsString.isWhiteSpace c) eqn:Hc; simpl.
  - intros Hr. specialize (IH Hr).
    destruct (JsString.trimEnd r =? "") eqn:E.
    + apply String.eqb_eq in E. contradiction.
    + discriminate.
  - intros _. discriminate.
Qed.

Lemma trimStart_head (s : string) :
  JsString.allChars JsString.isWhiteSpace s = false ->
  JsString.allChars JsString.isWhiteSpace (JsString.trimStart s) = false.
Proof.
  induction s as [| c r IH]; simpl; [discriminate |].
  destruct (JsString.isWhiteSpace c) eqn:Hc; simpl.
  - exact IH.
  - intros _. now rewrite Hc.
Qed.

(** [s.trim() === ''] holds exactly for the strings made of white space. *)
Lemma trim_empty_iff (s : string) :
  JsString.trim s = "" <-> JsString.allChars JsString.isWhiteSpace s = true.
Proof.
  unfold JsString.trim. split.
  - intros H. destruct (JsString.allChars JsString.isWhiteSpace s) eqn:E;
      [reflexivity |].
    exfalso. apply trimStart_head in E. now apply trimEnd_nonblank in E.
  - intros H. now rewrite trimStart_whitespace.
Qed.

Lemma lookup_replace_same (key : string) (v : JsValue) (ps : Props) :
  lookup key ps <> None -> lookup key (replaceProperty key v ps) = Some v.
Proof.
  induction ps as [| [k x] rest IH]; simpl; [congruence |].
  destruct (k =? key) eqn:E; simpl; rewrite E; auto.
Qed.

Lemma lookup_replace_other (key key' : string) (v : JsValue) (ps : Props) :
  key' <> key -> lookup key' (replaceProperty key v ps) = lookup key' ps.
Proof.
  intros Hne. induction ps as [| [k x] rest IH]; simpl; [reflexivity |].
  destruct (k =? key) eqn:E; simpl.
  - apply String.eqb_eq in E. subst k.
    destruct (key =? key') eqn:E'; [| reflexivity].
    apply String.eqb_eq in E'. congruence.
  - now rewrite IH.
Qed.

Lemma lookup_insertIndexed (i : N) (key key' : string) (v : JsValue)
    (ps : Props) :
  lookup key ps = None ->
  lookup key' (insertIndexed i key v ps)
  = if key =? key' then Some v else lookup key' ps.
Proof.
  induction ps as [| [k x] rest IH]; simpl; [reflexivity |].
  destruct (k =? key) eqn:Ek; [discriminate |]. intros Hnew.
  destruct (arrayIndex k); [destruct (i <? _)%N |]; simpl; try reflexivity.
  rewrite (IH Hnew). destruct (k =? key') eqn:E; [| reflexivity].
  destruct (key =? key') eqn:E'; [| reflexivity].
  apply String.eqb_eq in E, E'. subst. now rewrite String.eqb_refl in Ek.
Qed.

Lemma lookup_app_last (key key' : string) (v : JsValue) (ps : Props) :
  lookup key ps = None ->
  lookup key' (ps ++ [(key, v)])%list
  = if key =? key' then Some v else lookup key' ps.
Proof.
  induction ps as [| [k x] rest IH]; simpl; [reflexivity |].
  destruct (k =? key) eqn:Ek; [discriminate |]. intros Hnew.
  rewrite (IH Hnew). destruct (k =? key') eqn:E; [| reflexivity].
  destruct (key =? key') eqn:E'; [| reflexivity].
  apply String.eqb_eq in E, E'. subst. now rewrite String.eqb_refl in Ek.
Qed.

(** Reading a property back after [obj[key] = v]. *)
Lemma lookup_setProperty (key key' : string) (v : JsValue) (ps : Props) :
  lookup key' (setProperty ps key v)
  = if key =? key' then Some v else lookup key' ps.
Proof.
  unfold setProperty. destruct (lookup key ps) eqn:L.
  - destruct (key =? key') eqn:E.
    + apply String.eqb_eq in E. subst key'.
      apply lookup_replace_same. congruence.
    + apply lookup_replace_other. intros ->.
      now rewrite String.eqb_refl in E.
  - destruct (arrayIndex key).
    + now apply lookup_insertIndexed.
    + now apply lookup_app_last.
Qed.

(* ===================================================================== *)
(** ** The loop over the keys                                             *)
(* ===================================================================== *)

Section Loop.

Variable syntaxErrorMessage : string -> string.
Variable self : TinyEnvSchema.
Variable envVars : JsValue.
Variable delim : string.

Local Abbreviation stepOf := (processKey syntaxErrorMessage self envVars delim).
Local Abbreviation loop := (processKeys syntaxErrorMessage self envVars delim).

(** A failing key ends the loop. *)
Lemma processKeys_throw (key : string) (rest : list string) (env : Props)
    (t : Thrown) :
  resultOf (stepOf key) = Throw t ->
  loop (key :: rest) env = (callsOf (stepOf key), Throw t).
Proof.
  simpl. destruct (stepOf key) as [calls r]. simpl. now intros ->.
Qed.

(** A successful key stores its value and the loop goes on. *)
Lemma processKeys_ok (key : string) (rest : list string) (env : Props)
    (v : JsValue) :
  resultOf (stepOf key) = Ok v ->
  loop (key :: rest) env
  = ((callsOf (stepOf key) ++ callsOf (loop rest (setProperty env key v)))%list,
     resultOf (loop rest (setProperty env key v))).
Proof.
  simpl. destruct (stepOf key) as [calls r]. simpl. intros ->. simpl.
  now destruct (loop rest (setProperty env key v)).
Qed.

(** The loop stops at the first failing key: the calls made are those of
    the keys up to it, and the keys after it play no part. *)
Lemma processKeys_first_failure (pre post : list string) (key : string)
    (t : Thrown) (env : Props) :
  Forall (fun k => succeeds (stepOf k)) pre ->
  resultOf (stepOf key) = Throw t ->
  loop (pre ++ key :: post)%list env
  = (flat_map (fun k => callsOf (stepOf k)) (pre ++ [key])%list, Throw t).
Proof.
  intros Hpre Hkey. revert env.
  induction Hpre as [| k pre' [v Hv] _ IH]; intros env.
  - simpl app. rewrite (processKeys_throw _ _ _ _ Hkey). simpl.
    now rewrite app_nil_r.
  - simpl app. rewrite (processKeys_ok _ _ _ _ Hv), IH. reflexivity.
Qed.

(** When the loop succeeds every key succeeded, the calls are those of the
    keys in order, and the record holds each key's value. *)
Lemma processKeys_success (ks : list string) (env env' : Props) :
  resultOf (loop ks env) = Ok env' ->
  Forall (fun k => succeeds (stepOf k)) ks
  /\ callsOf (loop ks env) = flat_map (fun k => callsOf (stepOf k)) ks
  /\ (forall k, In k ks ->
        exists v, resultOf (stepOf k) = Ok v /\ lookup k env' = Some v)
  /\ (forall k, ~ In k ks -> lookup k env' = lookup k env).
Proof.
  revert env. induction ks as [| key rest IH]; intros env H.
  - simpl in *. injection H as <-. repeat split; auto. intros k [].
  - destruct (resultOf (stepOf key)) as [v | t] eqn:Hkey.
    + rewrite (processKeys_ok _ _ _ _ Hkey) in *. simpl in H.
      destruct (IH _ H) as (Hall & Hcalls & Hin & Hout).
      split; [constructor; [now exists v | exact Hall] |].
      split; [simpl; now rewrite Hcalls |].
      split.
      * intros k [-> | Hk].
        -- destruct (in_dec string_dec k rest) as [Hr | Hr]; [now apply Hin |].
           exists v. split; [exact Hkey |].
           rewrite (Hout _ Hr), lookup_setProperty.
           now rewrite String.eqb_refl.
        -- now apply Hin.
      * intros k Hk. simpl in Hk.
        rewrite Hout by tauto. rewrite lookup_setProperty.
        destruct (key =? k) eqn:E; [| reflexivity].
        apply String.eqb_eq in E. tauto.
    + rewrite (processKeys_throw _ _ _ _ Hkey) in H. discriminate.
Qed.

End Loop.

(* ===================================================================== *)
(** ** The claims                                                         *)
(* ===================================================================== *)

Lemma defaultOf_declared (self : TinyEnvSchema) (key : string) :
  defaultOf self key
  = match declaredDefault self key with Some v => v | None => JUndefined end.
Proof.
  unfold defaultOf, declaredDefault.
  destruct (options self) as [o |]; [| reflexivity].
  destruct (defaults o); reflexivity.
Qed.

Lemma inDefaults_declared (self : TinyEnvSchema) (key : string) :
  inDefaults self key
  = match declaredDefault self key with
    | Some _ => true
    | None => inheritedName key
    end.
Proof.
  unfold inDefaults, declaredDefault, inPlainObject.
  destruct (options self) as [o |]; [| reflexivity].
  destruct (defaults o) as [d |]; [| reflexivity].
  simpl. now destruct (lookup key d).
Qed.

(* --------------------------------------------------------------------- *)
(** *** The shape check                                                   *)
(* --------------------------------------------------------------------- *)

Lemma forInArray_indexed (body : string -> JsValue -> Result unit)
    (i : nat) (es : list JsValue) :
  forInArray body i es = forIn body (indexed i es).
Proof.
  revert i. induction es as [| e rest IH]; intros i; simpl; [reflexivity |].
  destruct (body _ e); [apply IH | reflexivity].
Qed.

(** One step of the recursion. *)
Lemma validateObjectShape_step (value defaultValue : JsValue) (key : string)
    (path : list string) :
  validateObjectShape value defaultValue key path
  = if negb (typeof value =? typeof defaultValue) then
      Throw (ThrownError (newTypeError
        ("Invalid type for " ++ dotted key path ++ ": expected "
           ++ typeof defaultValue ++ ", got " ++ typeof value)))
    else if isNonNullObject value then
      forIn (shapeBody value key path) (ownProperties defaultValue)
    else Ok tt.
Proof.
  unfold isNonNullObject.
  destruct defaultValue; simpl;
    destruct (negb _); try reflexivity;
    destruct (_ && _); try reflexivity.
  apply forInArray_indexed.
Qed.

Lemma shapeBody_passes (value : JsValue) (key : string) (path : list string)
    (entry : string * JsValue) :
  shapeBody value key path (fst entry) (snd entry) = Ok tt
  <-> propertyPasses value key path entry.
Proof.
  unfold shapeBody, propertyPasses. destruct entry as [prop dv]. simpl.
  destruct (hasProperty prop value); simpl.
  - split; [intros H; left; now split | intros [[_ H] | [H _]];
      [exact H | discriminate]].
  - destruct dv; simpl; split; try discriminate; try tauto;
      intros [[H _] | [_ H]]; discriminate.
Qed.

Lemma forIn_first_throw (body : string -> JsValue -> Result unit)
    (pre post : Props) (prop : string) (dv : JsValue) (t : Thrown) :
  Forall (fun entry => body (fst entry) (snd entry) = Ok tt) pre ->
  body prop dv = Throw t ->
  forIn body (pre ++ (prop, dv) :: post)%list = Throw t.
Proof.
  intros Hpre Hbody. induction Hpre as [| [p v] pre' Hp _ IH]; simpl.
  - now rewrite Hbody.
  - simpl in Hp. now rewrite Hp.
Qed.

Lemma forIn_ok_iff (body : string -> JsValue -> Result unit) (ps : Props) :
  forIn body ps = Ok tt
  <-> Forall (fun entry => body (fst entry) (snd entry) = Ok tt) ps.
Proof.
  induction ps as [| [p v] rest IH]; simpl.
  - split; [constructor | reflexivity].
  - destruct (body p v) as [[] | t] eqn:E.
    + rewrite IH. split; [intros H; constructor; assumption |].
      intros H. now inversion H.
    + split; [discriminate |]. intros H. inversion H as [| ? ? H1 _].
      simpl in H1. congruence.
Qed.

Lemma forIn_ext (f g : string -> JsValue -> Result unit) (ps : Props) :
  (forall p v, In p (map fst ps) -> f p v = g p v) ->
  forIn f ps = forIn g ps.
Proof.
  induction ps as [| [p v] rest IH]; intros H; simpl; [reflexivity |].
  rewrite (H p v) by (simpl; auto).
  destruct (g p v); [| reflexivity]. apply IH. intros p' v' Hin.
  apply H. simpl. auto.
Qed.

(** Two values that agree on the properties the default names are checked
    alike. *)
Lemma validateObjectShape_agree (value value' defaultValue : JsValue)
    (key : string) (path : list string) :
  typeof value' = typeof value ->
  isNull value' = isNull value ->
  (forall prop, In prop (map fst (ownProperties defaultValue)) ->
     hasProperty prop value' = hasProperty prop value
     /\ getProperty value' prop = getProperty value prop) ->
  validateObjectShape value' defaultValue key path
  = validateObjectShape value defaultValue key path.
Proof.
  intros Ht Hn Hp. rewrite !validateObjectShape_step.
  unfold isNonNullObject. rewrite Ht, Hn.
  destruct (negb _); [reflexivity |]. destruct (_ && _); [| reflexivity].
  apply forIn_ext. intros p v Hin. unfold shapeBody.
  destruct (Hp p Hin) as [-> ->]. reflexivity.
Qed.

(** C2, as amended.  The shape check fails with the type-mismatch error
    whenever the two [typeof] tags differ.  When they agree and the value is
    a non-null object, the properties of the default are visited in order
    and the first one that raises decides: a property the value lacks raises
    the missing-property error under the dotted path unless the default
    holds [undefined] for it, and a property the value has is checked
    recursively under the extended path, a failure there being the failure
    of the whole; the check succeeds exactly when every property of the
    default passes.  Properties of the value that the default does not name
    are not looked at. *)
Theorem C2_shape_check (value defaultValue : JsValue) (key : string)
    (path : list string) :
  (typeof value <> typeof defaultValue ->
     validateObjectShape value defaultValue key path
     = Throw (ThrownError (newTypeError
         ("Invalid type for " ++ dotted key path ++ ": expected "
            ++ typeof defaultValue ++ ", got " ++ typeof value))))
  /\ (typeof value = typeof defaultValue ->
      isNonNullObject value = true ->
      (forall pre prop dv post,
         ownProperties defaultValue = (pre ++ (prop, dv) :: post)%list ->
         Forall (propertyPasses value key path) pre ->
         (hasProperty prop value = false ->
          dv <> JUndefined ->
          validateObjectShape value defaultValue key path
          = Throw (ThrownError (newError
              ("Missing required property " ++ dotted key path ++ "."
                 ++ prop))))
         /\ (hasProperty prop value = true ->
             forall t,
               validateObjectShape (getProperty value prop) dv key
                 (path ++ [prop])%list = Throw t ->
               validateObjectShape value defaultValue key path = Throw t))
      /\ (validateObjectShape value defaultValue key path = Ok tt
          <-> Forall (propertyPasses value key path)
                (ownProperties defaultValue)))
  /\ (forall value',
        typeof value' = typeof value ->
        isNull value' = isNull value ->
        (forall prop, In prop (map fst (ownProperties defaultValue)) ->
           hasProperty prop value' = hasProperty prop value
           /\ getProperty value' prop = getProperty value prop) ->
        validateObjectShape value' defaultValue key path
        = validateObjectShape value defaultValue key path)
  /\ (forall ps extra x,
        value = JObj ps ->
        ~ In extra (map fst (ownProperties defaultValue)) ->
        validateObjectShape (JObj (setProperty ps extra x)) defaultValue key
          path
        = validateObjectShape value defaultValue key path).
Proof.
  split; [| split; [| split]].
  - intros Hne. rewrite validateObjectShape_step.
    destruct (typeof value =? typeof defaultValue) eqn:E; [| reflexivity].
    apply String.eqb_eq in E. contradiction.
  - intros Heq Hobj. rewrite validateObjectShape_step.
    rewrite Heq, String.eqb_refl, Hobj. simpl negb. cbv iota.
    assert (Hpass : forall l,
      Forall (propertyPasses value key path) l
      <-> Forall (fun entry =>
            shapeBody value key path (fst entry) (snd entry) = Ok tt) l).
    { intros l. rewrite !Forall_forall. split; intros H e He;
        apply shapeBody_passes; auto. }
    split.
    + intros pre prop dv post Hown Hpre. rewrite Hown.
      apply Hpass in Hpre. split.
      * intros Hhas Hdv. apply forIn_first_throw; [exact Hpre |].
        unfold shapeBody. rewrite Hhas. destruct dv; try reflexivity.
        congruence.
      * intros Hhas t Hrec. apply forIn_first_throw; [exact Hpre |].
        unfold shapeBody. rewrite Hhas. simpl. exact Hrec.
    + rewrite Hpass. apply forIn_ok_iff.
  - intros value'. apply validateObjectShape_agree.
  - intros ps extra x -> Hextra. apply validateObjectShape_agree;
      try reflexivity.
    intros prop Hin. simpl. rewrite lookup_setProperty.
    destruct (extra =? prop) eqn:E; [| now split].
    apply String.eqb_eq in E. subst. contradiction.
Qed.

Section Claims.

Variable syntaxErrorMessage : string -> string.

Local Abbreviation processKey' := (processKey syntaxErrorMessage).
Local Abbreviation parseAndValidate' := (parseAndValidate syntaxErrorMessage).
Local Abbreviation validate' := (validate syntaxErrorMessage).
Local Abbreviation tinyenv' := (tinyenv syntaxErrorMessage).
Local Abbreviation reached' := (reached syntaxErrorMessage).

Lemma parseAndValidate_object (self : TinyEnvSchema) (envVars : JsValue) :
  isNonNullObject envVars = true ->
  parseAndValidate' self envVars
  = (env <- processKeys syntaxErrorMessage self envVars (delimiterOf self)
              (keys self) [] ;;
     ret (freeze env)).
Proof.
  intros H. unfold parseAndValidate.
  destruct envVars; try discriminate H; reflexivity.
Qed.

(** The loop body reads the schema's options only. *)
Lemma processKey_options (s1 s2 : TinyEnvSchema) (envVars : JsValue)
    (delim key : string) :
  options s1 = options s2 ->
  processKey' s1 envVars delim key = processKey' s2 envVars delim key.
Proof.
  intros H. unfold processKey, runValidator, defaultOf, inDefaults,
    arrayTypeOf, validatorOf. now rewrite H.
Qed.

Lemma processKeys_options (s1 s2 : TinyEnvSchema) (envVars : JsValue)
    (delim : string) (ks : list string) (env : Props) :
  options s1 = options s2 ->
  processKeys syntaxErrorMessage s1 envVars delim ks env
  = processKeys syntaxErrorMessage s2 envVars delim ks env.
Proof.
  intros H. revert env. induction ks as [| k rest IH]; intros env;
    [reflexivity |].
  simpl. rewrite (processKey_options s1 s2 _ _ _ H).
  destruct (processKey' s2 envVars delim k) as [c [v | t]]; simpl;
    [now rewrite IH | reflexivity].
Qed.

(** The error of a reached, failing key is the outcome of the whole call,
    through each entry point. *)
Lemma reached_failure (self : TinyEnvSchema) (envVars : JsValue)
    (key : string) (t : Thrown) :
  isNonNullObject envVars = true ->
  reached' self envVars key ->
  resultOf (processKey' self envVars (delimiterOf self) key) = Throw t ->
  resultOf (parseAndValidate' self envVars) = Throw t
  /\ snd (validate' self envVars) = Failure [mkIssue (describe t)]
  /\ resultOf (tinyenv' (keys self) (options self) envVars)
     = Throw (ThrownError (newError (describe t))).
Proof.
  intros Hobj (pre & post & Hkeys & Hpre) Hkey.
  assert (H : resultOf (parseAndValidate' self envVars) = Throw t).
  { rewrite (parseAndValidate_object _ _ Hobj), Hkeys.
    now rewrite (processKeys_first_failure _ _ _ _ _ _ _ t [] Hpre Hkey). }
  split; [exact H |].
  assert (Hv : snd (validate' self envVars) = Failure [mkIssue (describe t)]).
  { unfold validate. destruct (parseAndValidate' self envVars) as [c r].
    simpl in H. now subst r. }
  split; [exact Hv |].
  unfold tinyenv. destruct self as [ks o]. simpl in *.
  destruct (validate' (mkSchema ks o) envVars) as [c r].
  simpl in Hv. now subst r.
Qed.

(** A record returned by [validate] holds, for each declared key, the value
    the loop body returned for it. *)
Lemma validate_success_record (self : TinyEnvSchema) (envVars record : JsValue)
    (key : string) :
  snd (validate' self envVars) = Success record ->
  In key (keys self) ->
  resultOf (processKey' self envVars (delimiterOf self) key)
  = Ok (getProperty record key).
Proof.
  unfold validate.
  destruct (parseAndValidate' self envVars) as [calls [r | t]] eqn:E;
    simpl; [| discriminate].
  intros [= ->] Hin.
  destruct (isNonNullObject envVars) eqn:Hobj.
  - rewrite (parseAndValidate_object _ _ Hobj) in E.
    destruct (processKeys syntaxErrorMessage self envVars (delimiterOf self)
                (keys self) []) as [calls' [env |]] eqn:E'; [| discriminate].
    simpl in E. injection E as _ <-.
    destruct (processKeys_success syntaxErrorMessage self envVars
                (delimiterOf self) (keys self) [] env)
      as (_ & _ & Hval & _); [now rewrite E' |].
    destruct (Hval key Hin) as (v & Hv & Hl). simpl. now rewrite Hl.
  - unfold parseAndValidate in E.
    destruct envVars; simpl in *; discriminate.
Qed.

(** The validator changes no value: a key that returns, returns the
    converted value. *)
Lemma validated_value (self : TinyEnvSchema) (key : string) (v x : JsValue) :
  resultOf (runValidator self key v ;; ret v) = Ok x -> x = v.
Proof.
  unfold runValidator. destruct (validatorOf self) as [check |].
  - unfold bind, ret. destruct (check key v) as [[e | y] |]; simpl;
      congruence.
  - simpl. congruence.
Qed.

(** C10. For every input that is not a non-null object (a string, a number,
    a boolean, [null], [undefined]), the Standard Schema [validate] makes no
    validator call and returns a failure whose issues list is the single
    entry "Input must be an object"; no result record is produced. *)
Theorem C10_input_must_be_object (self : TinyEnvSchema) (value : JsValue) :
  isNonNullObject value = false ->
  validate' self value
  = ([], Failure [mkIssue "Input must be an object"]).
Proof.
  intros H. unfold validate, parseAndValidate.
  destruct value; simpl in *; try reflexivity; discriminate.
Qed.

(** C7. Keys are processed in declaration order and the first failing key
    ends the call: when the keys before [key] succeed and [key] fails with
    [t], [parseAndValidate] raises [t] whatever the later keys are (so also
    when some of them would fail), the validator has been called for the
    keys up to [key] only, in order, and [validate] returns the one issue of
    [t] and no record. *)
Theorem C7_first_failure_wins (self : TinyEnvSchema) (envVars : JsValue)
    (pre post : list string) (key : string) (t : Thrown) :
  isNonNullObject envVars = true ->
  keys self = (pre ++ key :: post)%list ->
  Forall (fun k => succeeds (processKey' self envVars (delimiterOf self) k))
         pre ->
  resultOf (processKey' self envVars (delimiterOf self) key) = Throw t ->
  parseAndValidate' self envVars
  = (flat_map (fun k => callsOf (processKey' self envVars (delimiterOf self) k))
       (pre ++ [key])%list,
     Throw t)
  /\ snd (validate' self envVars) = Failure [mkIssue (describe t)]
  /\ forall post',
       parseAndValidate' (mkSchema (pre ++ key :: post')%list (options self))
         envVars
       = parseAndValidate' self envVars.
Proof.
  intros Hobj Hkeys Hpre Hkey.
  assert (H : forall post',
    parseAndValidate' (mkSchema (pre ++ key :: post')%list (options self))
      envVars
    = (flat_map
         (fun k => callsOf (processKey' self envVars (delimiterOf self) k))
         (pre ++ [key])%list, Throw t)).
  { intros post'. rewrite (parseAndValidate_object _ _ Hobj).
    change (delimiterOf (mkSchema (pre ++ key :: post')%list (options self)))
      with (delimiterOf self).
    rewrite (processKeys_options _ self) by reflexivity. simpl keys.
    now rewrite (processKeys_first_failure _ _ _ _ _ _ _ t [] Hpre Hkey). }
  assert (Hself : parseAndValidate' self envVars
    = (flat_map
         (fun k => callsOf (processKey' self envVars (delimiterOf self) k))
         (pre ++ [key])%list, Throw t)).
  { rewrite <- (H post). destruct self as [ks o]. simpl in Hkeys.
    now subst ks. }
  split; [exact Hself |]. split.
  - unfold validate. now rewrite Hself.
  - intros post'. now rewrite H, Hself.
Qed.

Lemma bind_lift_ok {A B : Type} (a : A) (f : A -> Run B) :
  (x <- lift (Ok a) ;; f x) = f a.
Proof. unfold bind, lift. now destruct (f a). Qed.

Lemma bind_lift_throw {A B : Type} (t : Thrown) (f : A -> Run B) :
  (x <- lift (Throw t) ;; f x) = ([], Throw t).
Proof. reflexivity. Qed.

Lemma absentOrBlank_test (rawValue : JsValue) :
  absentOrBlank rawValue ->
  (isUndefined rawValue || isEmpty rawValue) = true.
Proof.
  intros [-> | (s & -> & Hs)]; [reflexivity |].
  simpl. apply trim_empty_iff in Hs. rewrite Hs. reflexivity.
Qed.

Lemma absentOrBlank_select (rawValue defaultValue : JsValue) :
  absentOrBlank rawValue -> selectValue rawValue defaultValue = defaultValue.
Proof.
  intros H. apply absentOrBlank_test in H. unfold selectValue.
  rewrite orb_comm, H. reflexivity.
Qed.

(** The loop body once the two presence checks are passed. *)
Lemma processKey_with_default (self : TinyEnvSchema) (envVars : JsValue)
    (delim key : string) (dv : JsValue) :
  declaredDefault self key = Some dv ->
  dv <> JUndefined ->
  processKey' self envVars delim key
  = (parsedValue <-
       lift (convertValue syntaxErrorMessage key delim
               (selectValue (getProperty envVars key) dv) dv
               (arrayTypeOf self key)) ;;
     runValidator self key parsedValue ;;
     ret parsedValue).
Proof.
  intros Hd Hdv. unfold processKey.
  rewrite defaultOf_declared, Hd.
  destruct dv; try congruence; simpl; now rewrite andb_false_r.
Qed.

(** From the loop body to the entry points: a key whose body returns [v]
    whenever the validator lets it has [v] in every record returned, and a
    reached key whose body raises [e] makes [validate] return the one issue
    of [e]. *)
Lemma record_of_step (self : TinyEnvSchema) (envVars : JsValue)
    (key : string) (v : JsValue) :
  processKey' self envVars (delimiterOf self) key
  = (runValidator self key v ;; ret v) ->
  forall record,
    snd (validate' self envVars) = Success record ->
    In key (keys self) ->
    getProperty record key = v.
Proof.
  intros Hstep record Hok Hin.
  pose proof (validate_success_record _ _ _ _ Hok Hin) as H.
  rewrite Hstep in H. now apply validated_value in H.
Qed.

Lemma issue_of_step (self : TinyEnvSchema) (envVars : JsValue)
    (key : string) (e : JsError) :
  processKey' self envVars (delimiterOf self) key = throw e ->
  isNonNullObject envVars = true ->
  reached' self envVars key ->
  snd (validate' self envVars) = Failure [mkIssue (message e)].
Proof.
  intros Hstep Hobj Hreach.
  now destruct (reached_failure self envVars key _ Hobj Hreach
                  (f_equal resultOf Hstep)) as (_ & Hv & _).
Qed.

(** C3. A key whose entry in the defaults mapping is [undefined] fails with
    exactly "Invalid default value for key KEY: undefined is not allowed",
    for every input map (so whether or not it supplies a usable value for
    the key): the loop body raises it before it looks at the raw value, and
    it is the outcome of [validate] and of [tinyenv] once the key is
    reached. *)
Theorem C3_undefined_default_rejected (self : TinyEnvSchema)
    (envVars : JsValue) (key : string) :
  declaredDefault self key = Some JUndefined ->
  (forall delim,
     processKey' self envVars delim key
     = throw (newError ("Invalid default value for key " ++ key
                          ++ ": undefined is not allowed")))
  /\ (isNonNullObject envVars = true ->
      reached' self envVars key ->
      snd (validate' self envVars)
      = Failure [mkIssue ("Invalid default value for key " ++ key
                            ++ ": undefined is not allowed")]
      /\ resultOf (tinyenv' (keys self) (options self) envVars)
         = Throw (ThrownError
             (newError ("Invalid default value for key " ++ key
                          ++ ": undefined is not allowed")))).
Proof.
  intros Hd.
  assert (H : forall delim,
    processKey' self envVars delim key
    = throw (newError ("Invalid default value for key " ++ key
                         ++ ": undefined is not allowed"))).
  { intros delim. unfold processKey.
    now rewrite defaultOf_declared, inDefaults_declared, Hd. }
  split; [exact H |]. intros Hobj Hreach.
  destruct (reached_failure self envVars key _ Hobj Hreach
              (f_equal resultOf (H (delimiterOf self)))) as (_ & Hv & Ht).
  now split.
Qed.

(** X18. For a key that is not a name inherited from [Object.prototype], a
    raw value that is absent, or a string of white space only, is treated
    as absent.  With no default declared for the key the outcome is exactly
    "Missing environment variable: KEY".  With a default declared the
    selected value is the default, and the key is processed exactly as if
    the input map did not have it; a default that is a string, a boolean,
    [null] or a number other than NaN is itself the converted value, and
    the value of the key in every record returned. *)
Theorem blank_is_absent_on_plain_keys (self : TinyEnvSchema)
    (envVars : JsValue) (key : string) :
  inheritedName key = false ->
  absentOrBlank (getProperty envVars key) ->
  (declaredDefault self key = None ->
     (forall delim,
        processKey' self envVars delim key
        = throw (newError ("Missing environment variable: " ++ key)))
     /\ (isNonNullObject envVars = true ->
         reached' self envVars key ->
         snd (validate' self envVars)
         = Failure [mkIssue ("Missing environment variable: " ++ key)]))
  /\ (forall dv,
        declaredDefault self key = Some dv ->
        dv <> JUndefined ->
        selectValue (getProperty envVars key) (defaultOf self key) = dv
        /\ (forall delim,
              processKey' self envVars delim key
              = (parsedValue <-
                   lift (convertValue syntaxErrorMessage key delim dv dv
                           (arrayTypeOf self key)) ;;
                 runValidator self key parsedValue ;;
                 ret parsedValue)
              /\ processKey' self envVars delim key
                 = processKey' self (JObj []) delim key)
        /\ (match dv with
            | JNum JsNumber.NaN | JArr _ | JObj _ => True
            | _ =>
                (forall delim,
                   convertValue syntaxErrorMessage key delim dv dv
                     (arrayTypeOf self key) = Ok dv)
                /\ (forall record,
                      snd (validate' self envVars) = Success record ->
                      In key (keys self) ->
                      getProperty record key = dv)
            end)).
Proof.
  intros Hplain Hraw. split.
  - intros Hd.
    assert (H : forall delim,
      processKey' self envVars delim key
      = throw (newError ("Missing environment variable: " ++ key))).
    { intros delim. unfold processKey.
      rewrite defaultOf_declared, inDefaults_declared, Hd, Hplain.
      rewrite (absentOrBlank_test _ Hraw). reflexivity. }
    split; [exact H |]. apply (issue_of_step _ _ _ _ (H _)).
  - intros dv Hd Hdv.
    assert (Hstep : forall delim,
      processKey' self envVars delim key
      = (parsedValue <-
           lift (convertValue syntaxErrorMessage key delim dv dv
                   (arrayTypeOf self key)) ;;
         runValidator self key parsedValue ;;
         ret parsedValue)).
    { intros delim. rewrite (processKey_with_default _ _ _ _ _ Hd Hdv).
      now rewrite (absentOrBlank_select _ dv Hraw). }
    split; [| split].
    + rewrite defaultOf_declared, Hd. now apply absentOrBlank_select.
    + intros delim. split; [apply Hstep |].
      rewrite !(processKey_with_default _ _ _ _ _ Hd Hdv).
      now rewrite (absentOrBlank_select _ dv Hraw).
    + assert (Hrec : (forall delim,
          convertValue syntaxErrorMessage key delim dv dv
            (arrayTypeOf self key) = Ok dv) ->
        forall record,
          snd (validate' self envVars) = Success record ->
          In key (keys self) -> getProperty record key = dv).
      { intros Hconv. apply record_of_step.
        now rewrite Hstep, Hconv, bind_lift_ok. }
      destruct dv as [| | b | n | s | es | ps]; try exact I;
        try congruence.
      * split; [reflexivity | now apply Hrec].
      * split; [now destruct b | apply Hrec; now destruct b].
      * destruct n; try exact I; (split; [reflexivity | now apply Hrec]).
      * split; [reflexivity | now apply Hrec].
Qed.

(** C9. A key whose default is a plain object and whose raw value is absent
    or blank always fails with a message that begins "Failed to parse KEY as
    JSON:": the default selected as the value is turned into the text
    "[object Object]", which [JSON.parse] refuses, so an object default
    never serves as a fallback. *)
Theorem C9_object_default_is_no_fallback (self : TinyEnvSchema)
    (envVars : JsValue) (key : string) (dps : Props) :
  declaredDefault self key = Some (JObj dps) ->
  absentOrBlank (getProperty envVars key) ->
  ToString (selectValue (getProperty envVars key) (JObj dps))
  = "[object Object]"
  /\ (forall delim,
        processKey' self envVars delim key
        = throw (newError ("Failed to parse " ++ key ++ " as JSON: "
                             ++ syntaxErrorMessage "[object Object]")))
  /\ (isNonNullObject envVars = true ->
      reached' self envVars key ->
      exists rest,
        snd (validate' self envVars)
        = Failure [mkIssue ("Failed to parse " ++ key ++ " as JSON: "
                              ++ rest)]).
Proof.
  intros Hd Hraw.
  assert (H : forall delim,
    processKey' self envVars delim key
    = throw (newError ("Failed to parse " ++ key ++ " as JSON: "
                         ++ syntaxErrorMessage "[object Object]"))).
  { intros delim.
    rewrite (processKey_with_default _ _ _ _ _ Hd) by discriminate.
    rewrite (absentOrBlank_select _ _ Hraw). reflexivity. }
  split; [now rewrite (absentOrBlank_select _ _ Hraw) |].
  split; [exact H |]. intros Hobj Hreach.
  exists (syntaxErrorMessage "[object Object]").
  now destruct (reached_failure self envVars key _ Hobj Hreach
                  (f_equal resultOf (H (delimiterOf self)))) as (_ & Hv & _).
Qed.


(** [convertToType] refines the scalar rule. *)
Lemma convertToType_some (rule el key : string) (v : JsValue) :
  scalarRule rule el = Some v -> convertToType el rule key = Ok v.
Proof.
  unfold scalarRule, convertToType.
  destruct (rule =? "number").
  - destruct (JsNumber.ofString el); simpl; congruence.
  - destruct (rule =? "boolean"); [| congruence].
    unfold JsString.includes, truthyWords, falsyWords.
    destruct (existsb _ ["true"; "1"; "yes"]); [congruence |].
    destruct (existsb _ ["false"; "0"; "no"]); congruence.
Qed.

Lemma convertToType_none (rule el key : string) :
  scalarRule rule el = None ->
  (rule = "number" \/ rule = "boolean")
  /\ exists e,
       convertToType el rule key = Throw (ThrownError e)
       /\ message e = "Failed to parse " ++ key ++ " array element as "
                        ++ rule ++ ": " ++ el.
Proof.
  unfold scalarRule, convertToType.
  destruct (rule =? "number") eqn:En.
  - apply String.eqb_eq in En. subst rule.
    destruct (JsNumber.ofString el); simpl; try discriminate.
    intros _. split; [now left |]. eexists. split; reflexivity.
  - destruct (rule =? "boolean") eqn:Eb; [| discriminate].
    apply String.eqb_eq in Eb. subst rule.
    unfold JsString.includes, truthyWords, falsyWords.
    destruct (existsb _ ["true"; "1"; "yes"]); [discriminate |].
    destruct (existsb _ ["false"; "0"; "no"]); [discriminate |].
    intros _. split; [now right |]. eexists. split; reflexivity.
Qed.



Lemma mapConvert_identity (rule key : string) (els : list string) :
  (rule =? "number") = false -> (rule =? "boolean") = false ->
  mapConvert els rule key = Ok (map JStr els).
Proof.
  intros Hn Hb. induction els as [| el rest IH]; simpl; [reflexivity |].
  unfold convertToType. now rewrite Hn, Hb, IH.
Qed.

(** The array branch converts the elements of the spec's rule with the
    element type of the spec's rule. *)
Lemma parseArray_rule (key delim : string) (value : JsValue)
    (des : list JsValue) (arrayType : option ArrayType) :
  parseArray key delim value des arrayType
  = match mapConvert (arrayElements (ToString value) delim)
            (elementRule arrayType des) key with
    | Ok vs => Ok (JArr vs)
    | Throw t => Throw t
    end.
Proof.
  unfold parseArray, elementRule. fold (arrayElements (ToString value) delim).
  destruct arrayType as [t |]; [reflexivity |].
  destruct des as [| first rest]; simpl; [| reflexivity].
  now rewrite mapConvert_identity.
Qed.





(** Whatever the shape check raises leaves the object branch under the
    heading of a JSON parse failure. *)
Lemma parseObject_wraps (key : string) (value defaultValue parsed : JsValue)
    (t : Thrown) :
  JSON.parse (ToString value) = Some parsed ->
  validateObjectShape parsed defaultValue key [] = Throw t ->
  parseObject syntaxErrorMessage key value defaultValue
  = Throw (ThrownError (newError
      ("Failed to parse " ++ key ++ " as JSON: " ++ describe t))).
Proof.
  intros Hp Hs. unfold parseObject, JSON_parse. now rewrite Hp, Hs.
Qed.

End Claims.

(** C1. On the repository's own test input, the default
    [{ db: { host: '', port: 0 } }] for CONFIG and the text
    [{"db":{"host":"localhost"}}], the text parses and the shape check
    raises "Missing required property CONFIG.db.port", but the error that
    [validate] and [tinyenv] report is "Failed to parse CONFIG as JSON:
    Missing required property CONFIG.db.port"; likewise the type mismatch at
    CONFIG.db.port comes out behind the same heading.  The message the
    claim gives is not the whole message. *)
Theorem C1_shape_error_is_wrapped :
  (exists parsed,
     JSON.parse (jsonText missingPortText) = Some parsed
     /\ validateObjectShape parsed configDefault "CONFIG" []
        = Throw (ThrownError
            (newError "Missing required property CONFIG.db.port")))
  /\ validate sampleSyntaxErrorMessage configSchema (configEnv missingPortText)
     = ([], Failure [mkIssue
          "Failed to parse CONFIG as JSON: Missing required property CONFIG.db.port"])
  /\ tinyenv sampleSyntaxErrorMessage (keys configSchema)
       (options configSchema) (configEnv missingPortText)
     = throw (newError
         "Failed to parse CONFIG as JSON: Missing required property CONFIG.db.port")
  /\ (exists parsed,
        JSON.parse (jsonText textPortText) = Some parsed
        /\ validateObjectShape parsed configDefault "CONFIG" []
           = Throw (ThrownError (newTypeError
               "Invalid type for CONFIG.db.port: expected number, got string")))
  /\ validate sampleSyntaxErrorMessage configSchema (configEnv textPortText)
     = ([], Failure [mkIssue
          "Failed to parse CONFIG as JSON: Invalid type for CONFIG.db.port: expected number, got string"]).
Proof.
  split; [eexists; split; reflexivity |].
  split; [reflexivity |].
  split; [reflexivity |].
  split; [eexists; split; reflexivity | reflexivity].
Qed.

(** C4. The key [toString] is declared, no default is declared for it and
    the raw value is a string of white space only (or, second input, the
    input map has no entry of that name), so the claim's outcome is "Missing
    environment variable: toString", as it is for the key NAME.  But the
    test [key in (defaults ?? {})] of the loop body finds the name every
    object inherits from [Object.prototype], and the error that [validate]
    and [tinyenv] report is "Invalid default value for key toString:
    undefined is not allowed". *)
Theorem C4_inherited_key_reports_invalid_default :
  declaredDefault (mkSchema ["toString"] None) "toString" = None
  /\ isEmpty (getProperty (JObj [("toString", JStr "  ")]) "toString") = true
  /\ inDefaults (mkSchema ["toString"] None) "toString" = true
  /\ validate sampleSyntaxErrorMessage (mkSchema ["toString"] None)
       (JObj [("toString", JStr "  ")])
     = ([], Failure [mkIssue
          "Invalid default value for key toString: undefined is not allowed"])
  /\ tinyenv sampleSyntaxErrorMessage ["toString"] None
       (JObj [("toString", JStr "  ")])
     = throw (newError
         "Invalid default value for key toString: undefined is not allowed")
  /\ validate sampleSyntaxErrorMessage (mkSchema ["toString"] None) (JObj [])
     = ([], Failure [mkIssue
          "Invalid default value for key toString: undefined is not allowed"])
  /\ validate sampleSyntaxErrorMessage (mkSchema ["NAME"] None)
       (JObj [("NAME", JStr "  ")])
     = ([], Failure [mkIssue "Missing environment variable: NAME"]).
Proof. repeat split. Qed.

(** C2 as stated fails: the default [{ a: undefined }] has the property [a],
    the parsed object [{}] lacks it, and the shape check does not fail. *)
Lemma C2_counterexample :
  ~ (forall (value : JsValue) (dps : Props) (key : string)
       (path : list string) (prop : string) (dv : JsValue),
       isNonNullObject value = true ->
       In (prop, dv) dps ->
       hasProperty prop value = false ->
       exists t, validateObjectShape value (JObj dps) key path = Throw t).
Proof.
  intros H.
  destruct (H (JObj []) [("a", JUndefined)] "C" [] "a" JUndefined
              eq_refl (or_introl eq_refl) eq_refl) as [t Ht].
  discriminate Ht.
Qed.

(* ===================================================================== *)
(** ** The claims on concrete inputs                                      *)
(* ===================================================================== *)

Lemma C2_shape_check_witness :
  validateObjectShape (JObj [("host", JStr "localhost")])
    (JObj [("host", JStr ""); ("port", JNum (JsNumber.ofN 0))])
    "CONFIG" ["db"]
  = Throw (ThrownError (newError "Missing required property CONFIG.db.port")).
Proof.
  refine (proj1 (proj1 (proj1 (proj2
    (C2_shape_check (JObj [("host", JStr "localhost")])
       (JObj [("host", JStr ""); ("port", JNum (JsNumber.ofN 0))])
       "CONFIG" ["db"])) eq_refl eq_refl)
    [("host", JStr "")] "port" (JNum (JsNumber.ofN 0)) [] eq_refl _) _ _).
  - constructor; [| constructor]. left. split; reflexivity.
  - reflexivity.
  - discriminate.
Defined.

Lemma C3_undefined_default_rejected_witness :
  declaredDefault (schemaOf "X" JUndefined) "X" = Some JUndefined
  /\ snd (validate sampleSyntaxErrorMessage (schemaOf "X" JUndefined)
            (envOf "X" "usable"))
     = Failure [mkIssue
         "Invalid default value for key X: undefined is not allowed"].
Proof.
  split; [reflexivity |].
  refine (proj1 (proj2 (C3_undefined_default_rejected
    sampleSyntaxErrorMessage (schemaOf "X" JUndefined) (envOf "X" "usable")
    "X" eq_refl) eq_refl _)).
  exists [], []. split; [reflexivity | constructor].
Defined.

Lemma blank_is_absent_on_plain_keys_witness :
  absentOrBlank (getProperty (envOf "NAME" "   ") "NAME")
  /\ processKey sampleSyntaxErrorMessage (mkSchema ["NAME"] None)
       (envOf "NAME" "   ") "," "NAME"
     = throw (newError "Missing environment variable: NAME")
  /\ processKey sampleSyntaxErrorMessage (schemaOf "NAME" (JStr "default"))
       (envOf "NAME" "   ") "," "NAME"
     = processKey sampleSyntaxErrorMessage (schemaOf "NAME" (JStr "default"))
         (JObj []) "," "NAME".
Proof.
  assert (H : absentOrBlank (getProperty (envOf "NAME" "   ") "NAME")).
  { right. exists "   ". split; reflexivity. }
  split; [exact H |]. split.
  - exact (proj1 (proj1 (blank_is_absent_on_plain_keys
      sampleSyntaxErrorMessage (mkSchema ["NAME"] None) (envOf "NAME" "   ")
      "NAME" eq_refl H) eq_refl) ",").
  - refine (proj2 (proj1 (proj2 (proj2 (blank_is_absent_on_plain_keys
      sampleSyntaxErrorMessage (schemaOf "NAME" (JStr "default"))
      (envOf "NAME" "   ") "NAME" eq_refl H) (JStr "default") eq_refl _)) ",")).
    discriminate.
Defined.



Lemma C7_first_failure_wins_witness :
  resultOf (processKey sampleSyntaxErrorMessage (mkSchema ["OK"; "A"; "B"] None)
              (envOf "OK" "1") "," "B")
  = Throw (ThrownError (newError "Missing environment variable: B"))
  /\ validate sampleSyntaxErrorMessage (mkSchema ["OK"; "A"; "B"] None)
       (envOf "OK" "1")
     = ([], Failure [mkIssue "Missing environment variable: A"]).
Proof.
  split; [reflexivity |].
  assert (H := C7_first_failure_wins sampleSyntaxErrorMessage
    (mkSchema ["OK"; "A"; "B"] None) (envOf "OK" "1") ["OK"] ["B"] "A"
    (ThrownError (newError "Missing environment variable: A"))
    eq_refl eq_refl).
  destruct H as (Hrun & Hissue & _).
  - constructor; [| constructor]. exists (JStr "1"). reflexivity.
  - reflexivity.
  - unfold validate. rewrite Hrun. reflexivity.
Defined.


Lemma C9_object_default_is_no_fallback_witness :
  absentOrBlank (getProperty (JObj []) "CONFIG")
  /\ processKey sampleSyntaxErrorMessage configSchema (JObj []) "," "CONFIG"
     = throw (newError
         "Failed to parse CONFIG as JSON: Unexpected token in JSON")
  /\ exists rest,
       snd (validate sampleSyntaxErrorMessage configSchema (JObj []))
       = Failure [mkIssue ("Failed to parse CONFIG as JSON: " ++ rest)].
Proof.
  assert (H : absentOrBlank (getProperty (JObj []) "CONFIG"))
    by (left; reflexivity).
  assert (T := C9_object_default_is_no_fallback
    sampleSyntaxErrorMessage configSchema (JObj []) "CONFIG"
    [("db", JObj [("host", JStr ""); ("port", JNum (JsNumber.ofN 0))])]
    eq_refl H).
  split; [exact H |]. split.
  - exact (proj1 (proj2 T) ",").
  - apply (proj2 (proj2 T)); [reflexivity |].
    exists [], []. split; [reflexivity | constructor].
Defined.

Lemma C10_input_must_be_object_witness :
  isNonNullObject (JStr "PORT=8080") = false
  /\ validate sampleSyntaxErrorMessage (mkSchema ["PORT"] None)
       (JStr "PORT=8080")
     = ([], Failure [mkIssue "Input must be an object"]).
Proof.
  split; [reflexivity |].
  apply C10_input_must_be_object. reflexivity.
Defined.

(* ===================================================================== *)
(** ** The repository's tests, run on the model                           *)
(* ===================================================================== *)

Example test_reads_string :
  validate sampleSyntaxErrorMessage (mkSchema ["APP_NAME"] None)
    (envOf "APP_NAME" "MyApp")
  = ([], Success (JObj [("APP_NAME", JStr "MyApp")])).
Proof. reflexivity. Qed.

Example test_default_used :
  validate sampleSyntaxErrorMessage
    (schemaOf "PORT" (JNum (JsNumber.ofN 3000))) (JObj [])
  = ([], Success (JObj [("PORT", JNum (JsNumber.ofN 3000))])).
Proof. reflexivity. Qed.

Example test_env_overrides_default :
  validate sampleSyntaxErrorMessage
    (schemaOf "PORT" (JNum (JsNumber.ofN 3000))) (envOf "PORT" "8080")
  = ([], Success (JObj [("PORT", JNum (JsNumber.ofN 8080))])).
Proof. reflexivity. Qed.

Example test_blank_uses_default :
  validate sampleSyntaxErrorMessage (schemaOf "NAME" (JStr "default"))
    (envOf "NAME" "   ")
  = ([], Success (JObj [("NAME", JStr "default")])).
Proof. reflexivity. Qed.

Example test_invalid_number :
  validate sampleSyntaxErrorMessage (schemaOf "COUNT" (JNum (JsNumber.ofN 0)))
    (envOf "COUNT" "not-a-number")
  = ([], Failure [mkIssue "Failed to parse COUNT as number: not-a-number"]).
Proof. reflexivity. Qed.

Example test_number_array :
  validate sampleSyntaxErrorMessage
    (schemaOf "PORTS" (JArr [JNum (JsNumber.ofN 8080)]))
    (envOf "PORTS" "3000,4000,5000")
  = ([], Success (JObj [("PORTS",
       JArr [JNum (JsNumber.ofN 3000); JNum (JsNumber.ofN 4000);
             JNum (JsNumber.ofN 5000)])])).
Proof. reflexivity. Qed.

Example test_custom_delimiter :
  validate sampleSyntaxErrorMessage
    (mkSchema ["LIST"]
       (Some (mkOptions (Some [("LIST", JArr [])]) None (Some ";") None)))
    (envOf "LIST" "a;b;c")
  = ([], Success (JObj [("LIST", JArr [JStr "a"; JStr "b"; JStr "c"])])).
Proof. reflexivity. Qed.

Example test_boolean_array :
  validate sampleSyntaxErrorMessage
    (mkSchema ["FLAGS"]
       (Some (mkOptions (Some [("FLAGS", JArr [])]) None None
                (Some [("FLAGS", ABoolean)]))))
    (envOf "FLAGS" "true,0,yes,false,1,no")
  = ([], Success (JObj [("FLAGS",
       JArr [JBool true; JBool false; JBool true; JBool false; JBool true;
             JBool false])])).
Proof. reflexivity. Qed.

Example test_object_shape :
  validate sampleSyntaxErrorMessage configSchema (configEnv goodConfigText)
  = ([], Success (JObj [("CONFIG",
       JObj [("db", JObj [("host", JStr "localhost");
                          ("port", JNum (JsNumber.ofN 5432))])])])).
Proof. reflexivity. Qed.

Example test_invalid_json :
  validate sampleSyntaxErrorMessage (schemaOf "CONFIG" (JObj []))
    (envOf "CONFIG" "invalid-json")
  = ([], Failure [mkIssue
       "Failed to parse CONFIG as JSON: Unexpected token in JSON"]).
Proof. reflexivity. Qed.

Example test_port_validator :
  tinyenv sampleSyntaxErrorMessage ["PORT"]
    (Some (mkOptions (Some [("PORT", JNum (JsNumber.ofN 8080))])
             (Some portValidator) None None))
    (envOf "PORT" "80")
  = ([("PORT", JNum (JsNumber.ofN 80))],
     Throw (ThrownError (newError "Port must be between 1024 and 65535"))).
Proof. reflexivity. Qed.

(* ===================================================================== *)
(** ** Further properties of the engine                                   *)
(* ===================================================================== *)



Lemma mapConvert_throws_error (els : list string) (type key : string)
    (t : Thrown) :
  mapConvert els type key = Throw t -> exists e, t = ThrownError e.
Proof.
  induction els as [| el rest IH]; simpl; [discriminate |].
  unfold convertToType.
  destruct (type =? "number").
  - destruct (JsNumber.isNaN _); [intros [= <-]; eauto |].
    destruct (mapConvert rest type key); [discriminate |].
    intros [= <-]. now apply IH.
  - destruct (type =? "boolean").
    + destruct (JsString.includes truthyWords _);
        [| destruct (JsString.includes falsyWords _)];
        try (intros [= <-]; eauto; fail);
        (destruct (mapConvert rest type key); [discriminate |];
         intros [= <-]; now apply IH).
    + destruct (mapConvert rest type key); [discriminate |].
      intros [= <-]. now apply IH.
Qed.


Lemma lookup_absent_after (key key' : string) (v : JsValue) (ps : Props) :
  (key =? key') = false ->
  lookup key' ps = None ->
  lookup key' (setProperty ps key v) = None.
Proof.
  intros Hne Hl. now rewrite lookup_setProperty, Hne.
Qed.


Lemma trimEnd_idempotent (s : string) :
  JsString.trimEnd (JsString.trimEnd s) = JsString.trimEnd s.
Proof.
  induction s as [| c r IH]; simpl; [reflexivity |].
  destruct (JsString.isWhiteSpace c && (JsString.trimEnd r =? "")) eqn:E;
    [reflexivity |].
  simpl. now rewrite IH, E.
Qed.

Lemma trimStart_after_trim (s : string) :
  JsString.trimStart (JsString.trim s) = JsString.trim s.
Proof.
  unfold JsString.trim. induction s as [| c r IH]; simpl; [reflexivity |].
  destruct (JsString.isWhiteSpace c) eqn:E; [exact IH |].
  simpl. rewrite E. simpl. now rewrite E.
Qed.

(** [s.trim().trim() === s.trim()] *)
Lemma trim_idempotent (s : string) :
  JsString.trim (JsString.trim s) = JsString.trim s.
Proof.
  unfold JsString.trim at 1. rewrite trimStart_after_trim.
  unfold JsString.trim. apply trimEnd_idempotent.
Qed.

Lemma lowerChar_idempotent (c : ascii) :
  JsString.lowerChar (JsString.lowerChar c) = JsString.lowerChar c.
Proof. destruct c as [[] [] [] [] [] [] [] []]; reflexivity. Qed.

(** [s.toLowerCase().toLowerCase() === s.toLowerCase()] *)
Lemma toLowerCase_idempotent (s : string) :
  JsString.toLowerCase (JsString.toLowerCase s) = JsString.toLowerCase s.
Proof.
  induction s as [| c r IH]; simpl; [reflexivity |].
  now rewrite lowerChar_idempotent, IH.
Qed.

Lemma prefix_comma (c : ascii) (s : string) :
  prefix "," (String c s) = (c =? ",")%char.
Proof.
  change (prefix "," (String c s))
    with (if ascii_dec "," c then prefix "" s else false).
  destruct (ascii_dec "," c) as [<- | Hne].
  - rewrite Ascii.eqb_refl. now destruct s.
  - symmetry. apply Ascii.eqb_neq. congruence.
Qed.

Lemma splitGo_step (c : ascii) (s : string) :
  JsString.splitGo "," 0 (String c s)
  = if (c =? ",")%char then "" :: JsString.splitGo "," 0 s
    else match JsString.splitGo "," 0 s with
         | h :: t => String c h :: t
         | [] => [String c ""]
         end.
Proof.
  change (JsString.splitGo "," 0 (String c s))
    with (if prefix "," (String c s) then "" :: JsString.splitGo "," 0 s
          else match JsString.splitGo "," 0 s with
               | h :: t => String c h :: t
               | [] => [String c ""]
               end).
  now rewrite prefix_comma.
Qed.

Lemma splitGo_comma_piece (x rest : string) :
  JsString.allChars (fun c => negb (Ascii.eqb c ",")) x = true ->
  JsString.splitGo "," 0 (x ++ String "," rest)
  = x :: JsString.splitGo "," 0 rest.
Proof.
  induction x as [| c r IH]; intros H.
  - change ("" ++ String "," rest) with (String "," rest).
    now rewrite splitGo_step.
  - change (String c r ++ String "," rest)
      with (String c (r ++ String "," rest)).
    simpl in H. apply andb_true_iff in H as [Hc Hr].
    apply negb_true_iff in Hc. now rewrite splitGo_step, Hc, (IH Hr).
Qed.

Lemma splitGo_comma_last (x : string) :
  JsString.allChars (fun c => negb (Ascii.eqb c ",")) x = true ->
  JsString.splitGo "," 0 x = [x].
Proof.
  induction x as [| c r IH]; intros H; [reflexivity |].
  simpl in H. apply andb_true_iff in H as [Hc Hr].
  apply negb_true_iff in Hc. now rewrite splitGo_step, Hc, (IH Hr).
Qed.

(** [xs.join(',').split(',')] gives [xs] back when [xs] is not empty and no
    element holds a comma. *)
Lemma split_join_comma (xs : list string) :
  xs <> [] ->
  forallb (JsString.allChars (fun c => negb (Ascii.eqb c ","))) xs = true ->
  JsString.split (JsString.join "," xs) "," = xs.
Proof.
  unfold JsString.split. simpl (_ =? _).
  induction xs as [| x rest IH]; [congruence |]. intros _ H.
  simpl in H. apply andb_true_iff in H as [Hx Hrest].
  destruct rest as [| y rest'].
  - simpl. now apply splitGo_comma_last.
  - change (JsString.join "," (x :: y :: rest'))
      with (x ++ String "," (JsString.join "," (y :: rest'))).
    rewrite (splitGo_comma_piece _ _ Hx). f_equal.
    apply IH; [discriminate | exact Hrest].
Qed.

Lemma ToString_string_array (xs : list string) :
  ToString (JArr (map JStr xs)) = JsString.join "," xs.
Proof.
  simpl. f_equal. induction xs as [| x rest IH]; simpl; [reflexivity |].
  now rewrite IH.
Qed.

Lemma arrayElements_invariant (text delim : string) :
  Forall (fun el => el <> "" /\ JsString.trim el = el)
    (arrayElements text delim).
Proof.
  apply Forall_forall. intros el Hin. unfold arrayElements in Hin.
  apply filter_In in Hin as [Hin Hne]. apply in_map_iff in Hin as [p [<- _]].
  split; [| apply trim_idempotent].
  intros E. rewrite E in Hne. discriminate.
Qed.

(** An array of clean strings is read back from its string form. *)
Lemma arrayElements_clean (xs : list string) :
  forallb cleanElement xs = true ->
  arrayElements (ToString (JArr (map JStr xs))) "," = xs.
Proof.
  intros H. rewrite ToString_string_array. unfold arrayElements.
  destruct xs as [| x rest]; [reflexivity |].
  rewrite split_join_comma; [| discriminate |].
  - induction (x :: rest) as [| y ys IH]; [reflexivity |].
    simpl in H. apply andb_true_iff in H as [Hy Hys].
    unfold cleanElement in Hy.
    apply andb_true_iff in Hy as [Hy _]. apply andb_true_iff in Hy as [Hn Ht].
    apply String.eqb_eq in Ht. simpl. rewrite Ht, Hn. f_equal. now apply IH.
  - rewrite forallb_forall in *. intros y Hy. specialize (H y Hy).
    unfold cleanElement in H. now apply andb_true_iff in H as [_ H].
Qed.

Lemma convertToType_ok_inv (rule el key : string) (v : JsValue) :
  convertToType el rule key = Ok v -> scalarRule rule el = Some v.
Proof.
  intros H. destruct (scalarRule rule el) as [v' |] eqn:E.
  - rewrite (convertToType_some _ _ key _ E) in H. congruence.
  - destruct (convertToType_none _ _ key E) as (_ & e & He & _). congruence.
Qed.

Lemma mapConvert_ok_inv (rule key : string) (els : list string)
    (vs : list JsValue) :
  mapConvert els rule key = Ok vs ->
  Forall2 (fun el v => scalarRule rule el = Some v) els vs.
Proof.
  revert vs. induction els as [| el rest IH]; simpl; intros vs.
  - intros [= <-]. constructor.
  - destruct (convertToType el rule key) as [v |] eqn:E; [| discriminate].
    destruct (mapConvert rest rule key) as [vs' |]; [| discriminate].
    intros [= <-]. constructor;
      [now apply (convertToType_ok_inv _ _ key) | now apply IH].
Qed.

Lemma readDigits_uint (d : Decimal.uint) (acc : N) :
  JsNumber.readDigits 10 acc (NilEmpty.string_of_uint d)
  = (DecimalPos.Unsigned.of_lu (Decimal.rev d)
     + acc * 10 ^ DecimalPos.Unsigned.usize d)%N.
Proof.
  revert acc.
  induction d as [| d IH | d IH | d IH | d IH | d IH | d IH | d IH | d IH
                  | d IH | d IH]; intros acc;
    [simpl; lia | ..];
    unfold Decimal.rev; simpl Decimal.revapp;
    rewrite DecimalPos.Unsigned.of_lu_revapp;
    simpl NilEmpty.string_of_uint;
    cbn [JsNumber.readDigits];
    match goal with
    | |- context [JsNumber.digitIn 10 ?c] =>
        let v := eval vm_compute in (JsNumber.digitIn 10 c) in
        change (JsNumber.digitIn 10 c) with v
    end;
    cbv iota; rewrite IH; simpl DecimalPos.Unsigned.usize;
    simpl DecimalPos.Unsigned.of_lu; rewrite N.pow_succ_r'; lia.
Qed.

Lemma digits_of_uint (d : Decimal.uint) :
  JsString.allChars JsNumber.isDigit (NilEmpty.string_of_uint d) = true.
Proof.
  induction d; simpl; auto.
Qed.

Lemma pos_leading_digit (p : positive) :
  match Pos.to_uint p with
  | Decimal.Nil | Decimal.D0 _ => False
  | _ => True
  end.
Proof.
  pose proof (DecimalPos.Unsigned.to_uint_nonzero p) as Hnz.
  pose proof (DecimalPos.Unsigned.to_uint_nonnil p) as Hnn.
  pose proof (DecimalPos.Unsigned.to_of (Pos.to_uint p)) as Hfix.
  rewrite DecimalPos.Unsigned.of_to in Hfix. simpl N.to_uint in Hfix.
  destruct (Pos.to_uint p) as [| d | | | | | | | | |] eqn:E; try exact I.
  - congruence.
  - rewrite DecimalFacts.unorm_D0 in Hfix.
    destruct d as [| | | | | | | | | |]; [now apply Hnz | ..];
      match goal with
      | H : Decimal.D0 ?u = Decimal.unorm ?u |- _ =>
          pose proof (DecimalFacts.nb_digits_unorm u ltac:(discriminate)) as L;
          rewrite <- H in L; simpl in L; lia
      end.
Qed.

(** An index printed in decimal is read back as that index. *)
Lemma arrayIndex_digitsOfN (n : N) :
  (n < 4294967295)%N -> arrayIndex (JsNumber.digitsOfN n) = Some n.
Proof.
  intros Hn. unfold JsNumber.digitsOfN.
  assert (Hval : JsNumber.readDigits 10 0
                   (NilEmpty.string_of_uint (N.to_uint n)) = n).
  { rewrite readDigits_uint, N.mul_0_l, N.add_0_r.
    rewrite <- DecimalPos.Unsigned.of_uint_alt.
    apply DecimalN.Unsigned.of_to. }
  destruct n as [| p]; [reflexivity |].
  pose proof (pos_leading_digit p) as Hlead.
  pose proof (digits_of_uint (Pos.to_uint p)) as Hdig.
  simpl N.to_uint in *.
  unfold NilZero.string_of_uint.
  destruct (Pos.to_uint p) as [| d | d | d | d | d | d | d | d | d | d] eqn:E;
    try contradiction;
    unfold arrayIndex; simpl NilEmpty.string_of_uint in *; cbv iota;
    rewrite Hdig, Hval; cbn [andb negb orb Ascii.eqb Bool.eqb];
    apply N.ltb_lt in Hn; now rewrite Hn.
Qed.

(* --------------------------------------------------------------------- *)
(** *** The shape check on arrays, on the default itself, and its errors  *)
(* --------------------------------------------------------------------- *)

(** Induction on a value with the hypothesis for every element of an array
    and every property value of an object. *)
Lemma JsValue_nested_ind (P : JsValue -> Prop) :
  P JUndefined -> P JNull -> (forall b, P (JBool b)) ->
  (forall n, P (JNum n)) -> (forall s, P (JStr s)) ->
  (forall es, Forall P es -> P (JArr es)) ->
  (forall ps, Forall (fun entry => P (snd entry)) ps -> P (JObj ps)) ->
  forall v, P v.
Proof.
  intros Hu Hn Hb Hnum Hs Ha Ho. fix IH 1.
  intros [| | b | n | s | es | ps];
    [exact Hu | exact Hn | apply Hb | apply Hnum | apply Hs | |].
  - apply Ha. induction es as [| e rest IHes]; constructor;
      [apply IH | exact IHes].
  - apply Ho. induction ps as [| [k x] rest IHps]; constructor;
      [apply IH | exact IHps].
Qed.

Lemma distinct_lookup (ps : Props) (k : string) (x : JsValue) :
  distinctNames ps = true -> In (k, x) ps -> lookup k ps = Some x.
Proof.
  induction ps as [| [k' x'] rest IH]; simpl; [tauto |].
  destruct (lookup k' rest) eqn:L; [discriminate |].
  intros Hd [[= -> ->] | Hin].
  - now rewrite String.eqb_refl.
  - destruct (k' =? k) eqn:E; [| now apply IH].
    apply String.eqb_eq in E. subst k'.
    rewrite (IH Hd Hin) in L. discriminate.
Qed.

(** The entries of [indexed]: position [j] of the list under the decimal
    name of [i + j]. *)
Lemma Forall_indexed (Q : string * JsValue -> Prop) (i : nat)
    (es : list JsValue) :
  Forall Q (indexed i es)
  <-> forall j e, nth_error es j = Some e ->
                  Q (JsNumber.digitsOfN (N.of_nat (i + j)), e).
Proof.
  revert i. induction es as [| e rest IH]; intros i; simpl.
  - split; [intros _ [| j] e'; discriminate | constructor].
  - split.
    + intros H. inversion H as [| ? ? Hq Hrest]; subst.
      intros [| j] e' Hj; simpl in Hj.
      * injection Hj as <-. now rewrite Nat.add_0_r.
      * rewrite Nat.add_succ_r. apply (proj1 (IH (S i)) Hrest j e' Hj).
    + intros H. constructor.
      * specialize (H 0 e eq_refl). now rewrite Nat.add_0_r in H.
      * apply IH. intros j e' Hj. specialize (H (S j) e' Hj).
        now rewrite Nat.add_succ_r in H.
Qed.

(** Reading an array at the decimal name of a position. *)
Lemma array_property (es : list JsValue) (j : nat) :
  (N.of_nat j < 4294967295)%N ->
  hasProperty (JsNumber.digitsOfN (N.of_nat j)) (JArr es)
  = (j <? List.length es)%nat
  /\ getProperty (JArr es) (JsNumber.digitsOfN (N.of_nat j))
     = nth j es JUndefined.
Proof.
  intros Hj. simpl. rewrite (arrayIndex_digitsOfN _ Hj), Nat2N.id.
  split; [| reflexivity].
  destruct (Nat.ltb_spec j (List.length es)) as [H | H].
  - apply N.ltb_lt. lia.
  - apply N.ltb_ge. lia.
Qed.

Lemma nth_error_nth (es : list JsValue) (j : nat) :
  nth j es JUndefined
  = match nth_error es j with Some e => e | None => JUndefined end.
Proof.
  revert j. induction es as [| e rest IH]; intros [| j]; simpl; auto.
Qed.

Lemma validateObjectShape_arrays (vs des : list JsValue) (key : string)
    (path : list string) :
  (N.of_nat (List.length des) < 4294967295)%N ->
  (validateObjectShape (JArr vs) (JArr des) key path = Ok tt
   <-> forall j d,
         nth_error des j = Some d ->
         match nth_error vs j with
         | Some v =>
             validateObjectShape v d key
               (path ++ [JsNumber.digitsOfN (N.of_nat j)]) = Ok tt
         | None => d = JUndefined
         end).
Proof.
  intros Hlen.
  rewrite validateObjectShape_step. simpl typeof. simpl negb.
  cbv iota. change (isNonNullObject (JArr vs)) with true. cbv iota.
  simpl ownProperties. rewrite forIn_ok_iff, Forall_indexed.
  assert (Hbody : forall j d, nth_error des j = Some d ->
    (shapeBody (JArr vs) key path (JsNumber.digitsOfN (N.of_nat j)) d
     = Ok tt
     <-> match nth_error vs j with
         | Some v =>
             validateObjectShape v d key
               (path ++ [JsNumber.digitsOfN (N.of_nat j)]) = Ok tt
         | None => d = JUndefined
         end)).
  { intros j d Hj.
    assert (Hjb : (N.of_nat j < 4294967295)%N).
    { assert (j < List.length des)%nat
        by (apply nth_error_Some; congruence). lia. }
    destruct (array_property vs j Hjb) as [Hhas Hget].
    unfold shapeBody. rewrite Hhas, Hget, nth_error_nth.
    destruct (nth_error vs j) as [v |] eqn:Ev.
    - assert (Hlt : (j <? List.length vs)%nat = true)
        by (apply Nat.ltb_lt, nth_error_Some; congruence).
      rewrite Hlt. simpl. tauto.
    - apply nth_error_None in Ev. apply Nat.ltb_ge in Ev.
      rewrite Ev. simpl. destruct d; simpl; split; congruence. }
  split; intros H j d Hj.
  - apply Hbody; [exact Hj |]. exact (H j d Hj).
  - simpl. apply Hbody; [exact Hj |]. exact (H j d Hj).
Qed.

(** X11. An array in the default is checked position by position: the
    check of an array against it succeeds exactly when, at every position of
    the default array, the value array has an element that passes the check
    under the path extended by the position, or has none and the default
    holds [undefined] there.  In particular a value array shorter than a
    default array of defined elements is refused. *)
Theorem shape_checks_arrays_by_position (vs des : list JsValue)
    (key : string) (path : list string) :
  (N.of_nat (List.length des) < 4294967295)%N ->
  (validateObjectShape (JArr vs) (JArr des) key path = Ok tt
   <-> forall j d,
         nth_error des j = Some d ->
         match nth_error vs j with
         | Some v =>
             validateObjectShape v d key
               (path ++ [JsNumber.digitsOfN (N.of_nat j)]) = Ok tt
         | None => d = JUndefined
         end)
  /\ (List.length vs < List.length des ->
      Forall (fun d => d <> JUndefined) des ->
      exists t, validateObjectShape (JArr vs) (JArr des) key path = Throw t).
Proof.
  intros Hlen.
  pose proof (validateObjectShape_arrays vs des key path Hlen) as Hiff.
  split; [exact Hiff |]. intros Hshort Hdef.
  destruct (validateObjectShape (JArr vs) (JArr des) key path)
    as [[] | t] eqn:E; [| eauto].
  exfalso. destruct (nth_error des (List.length vs)) as [d |] eqn:Ed.
  - pose proof (proj1 Hiff eq_refl _ _ Ed) as H.
    rewrite (proj2 (nth_error_None vs _) (Nat.le_refl _)) in H.
    rewrite Forall_forall in Hdef. apply (Hdef d); [| exact H].
    eapply nth_error_In, Ed.
  - apply nth_error_None in Ed. lia.
Qed.

(** X12. A well-formed value passes the shape check against itself: an
    input that parses to the default's own structure is never refused. *)
Theorem shape_accepts_the_default_itself (d : JsValue) (key : string) :
  wellFormed d = true ->
  forall path, validateObjectShape d d key path = Ok tt.
Proof.
  induction d as [| | b | n | s | es IH | ps IH] using JsValue_nested_ind;
    intros Hwf path; try reflexivity.
  - simpl in Hwf. apply andb_true_iff in Hwf as [Hlen Hall].
    apply N.ltb_lt in Hlen.
    apply (validateObjectShape_arrays es es key path Hlen).
    intros j e Hj. rewrite Hj.
    rewrite Forall_forall in IH. rewrite forallb_forall in Hall.
    pose proof (nth_error_In _ _ Hj) as Hin. now apply IH; [| apply Hall].
  - simpl in Hwf. apply andb_true_iff in Hwf as [Hdist Hall].
    rewrite validateObjectShape_step. simpl typeof. simpl negb. cbv iota.
    change (isNonNullObject (JObj ps)) with true. cbv iota.
    simpl ownProperties. apply forIn_ok_iff.
    rewrite Forall_forall in *. rewrite forallb_forall in Hall.
    intros [k x] Hin. simpl. unfold shapeBody. simpl hasProperty.
    simpl getProperty. rewrite (distinct_lookup _ _ _ Hdist Hin). simpl.
    apply (IH (k, x) Hin). exact (Hall (k, x) Hin).
Qed.

Lemma forIn_throw_inv (body : string -> JsValue -> Result unit) (ps : Props)
    (t : Thrown) :
  forIn body ps = Throw t ->
  exists prop dv, In (prop, dv) ps /\ body prop dv = Throw t.
Proof.
  induction ps as [| [p v] rest IH]; simpl; [discriminate |].
  destruct (body p v) as [[] | t'] eqn:E.
  - intros H. destruct (IH H) as (prop & dv & Hin & Hb). eauto 6.
  - intros [= <-]. eauto 6.
Qed.

Lemma indexed_In (i : nat) (es : list JsValue) (prop : string)
    (e : JsValue) :
  In (prop, e) (indexed i es) -> In e es.
Proof.
  revert i. induction es as [| x rest IH]; intros i; simpl; [tauto |].
  intros [[= _ ->] | H]; [now left | right; eapply IH, H].
Qed.

(** X13. Whatever the two values, a failure of the shape check is one of
    two errors, and each names the key and a path that extends the path the
    check started from: a TypeError "Invalid type for KEY.path: expected T,
    got U", or an Error "Missing required property KEY.path.prop". *)
Theorem shape_errors_name_key_and_path (defaultValue value : JsValue)
    (key : string) (path : list string) (t : Thrown) :
  validateObjectShape value defaultValue key path = Throw t ->
  exists e below,
    t = ThrownError e
    /\ ((errorName e = "TypeError"
         /\ exists expected actual,
              message e = "Invalid type for " ++ dotted key (path ++ below)
                            ++ ": expected " ++ expected ++ ", got " ++ actual)
        \/ (errorName e = "Error"
            /\ exists prop,
                 message e = "Missing required property "
                               ++ dotted key (path ++ below) ++ "." ++ prop)).
Proof.
  revert value path.
  induction defaultValue as [| | b | n | s | es IH | ps IH]
    using JsValue_nested_ind; intros value path;
    match goal with
    | |- validateObjectShape _ ?D _ _ = _ -> _ =>
        rewrite validateObjectShape_step;
        destruct (negb _);
        [intros [= <-]; eexists; exists []; rewrite app_nil_r;
         split; [reflexivity |]; left; split; [reflexivity |];
         exists (typeof D), (typeof value); reflexivity |]
    end;
    destruct (isNonNullObject value); try discriminate.
  all: intros H; apply forIn_throw_inv in H as (prop & dv & Hin & Hb);
    unfold shapeBody in Hb;
    (destruct (negb (hasProperty prop value) && negb (isUndefined dv));
     [injection Hb as <-; eexists; exists []; rewrite app_nil_r;
      split; [reflexivity |]; right; split; [reflexivity |];
      eexists; reflexivity |]);
    destruct (hasProperty prop value); try discriminate.
  - simpl in Hin. rewrite Forall_forall in IH.
    destruct (IH dv (indexed_In _ _ _ _ Hin) _ _ Hb) as (e & below & -> & Hm).
    exists e, (prop :: below). split; [reflexivity |].
    now rewrite <- app_assoc in Hm.
  - simpl in Hin. rewrite Forall_forall in IH.
    destruct (IH (prop, dv) Hin _ _ Hb) as (e & below & -> & Hm).
    exists e, (prop :: below). split; [reflexivity |].
    now rewrite <- app_assoc in Hm.
Qed.

(** X15. Against a default without properties (a scalar, [null], an empty
    object or an empty array) the shape check is the comparison of the
    [typeof] tags and nothing more: so [null], arrays and objects all pass
    where the default is [{}], [[]] or [null]. *)
Theorem shape_of_propertyless_default_is_typeof (value defaultValue : JsValue)
    (key : string) (path : list string) :
  ownProperties defaultValue = [] ->
  (validateObjectShape value defaultValue key path = Ok tt
   <-> typeof value = typeof defaultValue).
Proof.
  intros Hown. rewrite validateObjectShape_step, Hown.
  destruct (typeof value =? typeof defaultValue) eqn:E; simpl.
  - apply String.eqb_eq in E. destruct (isNonNullObject value); tauto.
  - apply String.eqb_neq in E. split; [discriminate | contradiction].
Qed.

Lemma append_empty_r (s : string) : s ++ "" = s.
Proof. induction s as [| c r IH]; simpl; [reflexivity | now rewrite IH]. Qed.

Lemma mapConvert_error_names_key (els : list string) (type key : string)
    (t : Thrown) :
  mapConvert els type key = Throw t ->
  exists e post,
    t = ThrownError e /\ message e = "Failed to parse " ++ key ++ post.
Proof.
  induction els as [| el rest IH]; simpl; [discriminate |].
  destruct (scalarRule type el) as [v |] eqn:E.
  - rewrite (convertToType_some _ _ key _ E).
    destruct (mapConvert rest type key); [discriminate |].
    intros [= <-]. now apply IH.
  - destruct (convertToType_none _ _ key E) as (_ & e & He & Hm).
    rewrite He. intros [= <-]. exists e. eexists. split; [reflexivity |].
    exact Hm.
Qed.

Section Further.

Variable syntaxErrorMessage : string -> string.

Local Abbreviation processKey' := (processKey syntaxErrorMessage).
Local Abbreviation parseAndValidate' := (parseAndValidate syntaxErrorMessage).
Local Abbreviation validate' := (validate syntaxErrorMessage).
Local Abbreviation tinyenv' := (tinyenv syntaxErrorMessage).
Local Abbreviation reached' := (reached syntaxErrorMessage).

Lemma convertValue_throws_error (key delim : string)
    (value defaultValue : JsValue) (arrayType : option ArrayType)
    (t : Thrown) :
  convertValue syntaxErrorMessage key delim value defaultValue arrayType
  = Throw t ->
  exists e, t = ThrownError e.
Proof.
  unfold convertValue. destruct (isUndefined defaultValue); [discriminate |].
  destruct (typeof defaultValue =? "number").
  { destruct (JsNumber.isNaN _); [| discriminate]. intros [= <-]. eauto. }
  destruct (typeof defaultValue =? "boolean").
  { destruct (JsString.includes truthyWords _); [discriminate |].
    destruct (JsString.includes falsyWords _); [discriminate |].
    intros [= <-]. eauto. }
  destruct (typeof defaultValue =? "object"); [| discriminate].
  assert (Hobj : parseObject syntaxErrorMessage key value defaultValue
                 = Throw t -> exists e, t = ThrownError e).
  { unfold parseObject.
    destruct (JSON_parse syntaxErrorMessage (ToString value)) as [p | t'].
    - destruct (validateObjectShape p defaultValue key []);
        [discriminate | intros [= <-]; eauto].
    - intros [= <-]. eauto. }
  destruct defaultValue; try exact Hobj.
  unfold parseArray. destruct arrayType as [ty |].
  - destruct (mapConvert _ _ key) eqn:E; [discriminate |].
    intros [= <-]. now apply mapConvert_throws_error in E.
  - destruct (0 <? _)%nat; [| discriminate].
    destruct (mapConvert _ _ key) eqn:E; [discriminate |].
    intros [= <-]. now apply mapConvert_throws_error in E.
Qed.

Lemma processKey_throws_error (self : TinyEnvSchema) (envVars : JsValue)
    (delim key : string) (t : Thrown) :
  resultOf (processKey' self envVars delim key) = Throw t ->
  exists e, t = ThrownError e.
Proof.
  unfold processKey.
  destruct (_ && _); [intros [= <-]; eauto |].
  destruct (_ && _); [intros [= <-]; eauto |].
  destruct (convertValue _ _ _ _ _ _) as [pv | t'] eqn:E.
  - rewrite bind_lift_ok. unfold runValidator.
    destruct (validatorOf self) as [check |]; [| discriminate].
    unfold bind, ret. destruct (check key pv) as [[e | x] |]; simpl;
      try discriminate; intros [= <-]; eauto.
  - simpl. intros [= <-]. now apply convertValue_throws_error in E.
Qed.

Lemma processKeys_throws_error (self : TinyEnvSchema) (envVars : JsValue)
    (delim : string) (ks : list string) (env : Props) (t : Thrown) :
  resultOf (processKeys syntaxErrorMessage self envVars delim ks env)
  = Throw t ->
  exists e, t = ThrownError e.
Proof.
  revert env. induction ks as [| k rest IH]; intros env; [discriminate |].
  destruct (resultOf (processKey' self envVars delim k)) as [v | t'] eqn:E.
  - rewrite (processKeys_ok _ _ _ _ _ _ _ _ E). apply IH.
  - rewrite (processKeys_throw _ _ _ _ _ _ _ _ E). simpl.
    intros [= <-]. now apply processKey_throws_error in E.
Qed.

Lemma parseAndValidate_throws_errors_only_aux (self : TinyEnvSchema)
    (value : JsValue) (t : Thrown) :
  resultOf (parseAndValidate' self value) = Throw t ->
  exists e, t = ThrownError e.
Proof.
  intros H. unfold parseAndValidate in H.
  destruct (negb _ || _); [simpl in H; injection H as <-; eauto |].
  destruct (processKeys _ _ _ _ _ _) as [calls [env | t']] eqn:E;
    [discriminate |].
  simpl in H. injection H as <-.
  apply (processKeys_throws_error self value (delimiterOf self)
           (keys self) []). now rewrite E.
Qed.

(** X1. Whatever the input, the schema and the validator, a failure of
    [parseAndValidate] is an instance of [Error]: a value the validator
    throws that is no [Error] never escapes.  So [validate] always reports
    exactly one issue, whose message is the message of that [Error], and
    never the string form of a thrown value. *)
Theorem parseAndValidate_throws_errors_only (self : TinyEnvSchema)
    (value : JsValue) (t : Thrown) :
  resultOf (parseAndValidate' self value) = Throw t ->
  exists e,
    t = ThrownError e
    /\ snd (validate' self value) = Failure [mkIssue (message e)].
Proof.
  intros H.
  destruct (parseAndValidate_throws_errors_only_aux _ _ _ H) as [e ->]. exists e. split; [reflexivity |].
  unfold validate. destruct (parseAndValidate' self value) as [calls r].
  simpl in H. now subst r.
Qed.



(** X4. [tinyenv] makes the validator calls of [validate], returns the
    record exactly when [validate] succeeds with it, and otherwise throws a
    plain [Error] that carries the message of the error raised inside: the
    class of that error (TypeError for a number) is not kept, and the
    fallback message "Validation failed" is never used. *)
Theorem tinyenv_mirrors_validate (ks : list string) (opts : option Options)
    (processEnv : JsValue) :
  callsOf (tinyenv' ks opts processEnv)
  = fst (validate' (mkSchema ks opts) processEnv)
  /\ (forall record,
        resultOf (tinyenv' ks opts processEnv) = Ok record
        <-> snd (validate' (mkSchema ks opts) processEnv) = Success record)
  /\ (forall t,
        resultOf (tinyenv' ks opts processEnv) = Throw t ->
        exists e,
          resultOf (parseAndValidate' (mkSchema ks opts) processEnv)
          = Throw (ThrownError e)
          /\ t = ThrownError (mkError "Error" (message e))).
Proof.
  unfold tinyenv.
  destruct (resultOf (parseAndValidate' (mkSchema ks opts) processEnv))
    as [r | t'] eqn:E.
  - unfold validate.
    destruct (parseAndValidate' (mkSchema ks opts) processEnv) as [calls r'].
    simpl in E. subst r'. simpl. split; [reflexivity |]. split.
    + intros record. split; congruence.
    + discriminate.
  - destruct (parseAndValidate_throws_errors_only_aux
                (mkSchema ks opts) processEnv t' E) as [e ->].
    unfold validate.
    destruct (parseAndValidate' (mkSchema ks opts) processEnv) as [calls r'].
    simpl in E. subst r'. simpl. split; [reflexivity |]. split.
    + intros record. split; discriminate.
    + intros t [= <-]. exists e. now split.
Qed.

Lemma processKeys_all_succeed (self : TinyEnvSchema) (envVars : JsValue)
    (delim : string) (ks : list string) (env : Props) :
  Forall (fun k => succeeds (processKey' self envVars delim k)) ks ->
  exists env',
    resultOf (processKeys syntaxErrorMessage self envVars delim ks env)
    = Ok env'.
Proof.
  intros H. revert env. induction H as [| k rest [v Hv] _ IH]; intros env.
  - now exists env.
  - rewrite (processKeys_ok _ _ _ _ _ _ _ _ Hv). apply IH.
Qed.

Lemma validate_success_cases (self : TinyEnvSchema) (envVars : JsValue) :
  isNonNullObject envVars = true ->
  ((exists record, snd (validate' self envVars) = Success record)
   <-> Forall (fun k => succeeds (processKey' self envVars
                                    (delimiterOf self) k)) (keys self)).
Proof.
  intros Hobj. unfold validate.
  rewrite (parseAndValidate_object _ _ _ Hobj).
  destruct (processKeys syntaxErrorMessage self envVars (delimiterOf self)
              (keys self) []) as [calls [env | t]] eqn:E; simpl.
  - split; [| intros _; eauto]. intros _.
    apply (processKeys_success syntaxErrorMessage self envVars
             (delimiterOf self) (keys self) [] env). now rewrite E.
  - split; [intros [record H]; discriminate |]. intros Hall.
    destruct (processKeys_all_succeed _ _ _ _ [] Hall) as [env' H'].
    rewrite E in H'. discriminate.
Qed.

(** X5. On an object input, [validate] succeeds exactly when every declared
    key, processed on its own, succeeds.  So whether a call succeeds does
    not depend on the order the keys are declared in (only which failure is
    reported does). *)
Theorem validate_succeeds_iff_every_key_does (self : TinyEnvSchema)
    (envVars : JsValue) :
  isNonNullObject envVars = true ->
  ((exists record, snd (validate' self envVars) = Success record)
   <-> Forall (fun k => succeeds (processKey' self envVars
                                    (delimiterOf self) k)) (keys self))
  /\ (forall ks',
        Permutation (keys self) ks' ->
        (exists record, snd (validate' self envVars) = Success record)
        <-> (exists record,
               snd (validate' (mkSchema ks' (options self)) envVars)
               = Success record)).
Proof.
  intros Hobj. split; [now apply validate_success_cases |].
  intros ks' Hperm.
  rewrite (validate_success_cases self envVars Hobj).
  rewrite (validate_success_cases (mkSchema ks' (options self)) envVars Hobj).
  simpl keys.
  change (delimiterOf (mkSchema ks' (options self))) with (delimiterOf self).
  assert (Hsame : forall k,
    processKey' (mkSchema ks' (options self)) envVars (delimiterOf self) k
    = processKey' self envVars (delimiterOf self) k).
  { intros k. now apply processKey_options. }
  split; intros H.
  - apply (Permutation_Forall Hperm) in H.
    eapply Forall_impl; [| exact H]. intros k Hk. simpl in Hk.
    now rewrite Hsame.
  - apply (Permutation_Forall (Permutation_sym Hperm)).
    eapply Forall_impl; [| exact H]. intros k Hk. simpl in Hk.
    now rewrite Hsame in Hk.
Qed.



Lemma processKey_reads_key_only (self : TinyEnvSchema) (env1 env2 : JsValue)
    (delim key : string) :
  getProperty env1 key = getProperty env2 key ->
  processKey' self env1 delim key = processKey' self env2 delim key.
Proof. intros H. unfold processKey. now rewrite H. Qed.

(** X7. The engine reads the input map at the declared keys only: two
    object inputs that agree on every declared key give the same outcome,
    record or error, and the same validator calls.  Entries of the input
    under other names are never looked at. *)
Theorem validate_reads_declared_keys_only (self : TinyEnvSchema)
    (env1 env2 : JsValue) :
  isNonNullObject env1 = true ->
  isNonNullObject env2 = true ->
  (forall k, In k (keys self) -> getProperty env1 k = getProperty env2 k) ->
  validate' self env1 = validate' self env2.
Proof.
  intros H1 H2 Hagree. unfold validate.
  rewrite (parseAndValidate_object _ _ _ H1).
  rewrite (parseAndValidate_object _ _ _ H2).
  assert (Hloop : forall ks env,
    (forall k, In k ks -> getProperty env1 k = getProperty env2 k) ->
    processKeys syntaxErrorMessage self env1 (delimiterOf self) ks env
    = processKeys syntaxErrorMessage self env2 (delimiterOf self) ks env).
  { induction ks as [| k rest IH]; intros env Hks; [reflexivity |].
    simpl. rewrite (processKey_reads_key_only self env1 env2 _ k)
      by (apply Hks; now left).
    destruct (processKey' self env2 (delimiterOf self) k) as [c [v | t]];
      simpl; [| reflexivity].
    rewrite IH; [reflexivity |]. intros k' Hk'. apply Hks. now right. }
  now rewrite (Hloop (keys self) [] Hagree).
Qed.

(** X8. In the array branch the elements handed to the conversion are never
    empty and carry no surrounding white space.  When the key succeeds its
    value is an array with one entry per element, in order, each the
    conversion of its element; and with an element type other than number
    and boolean the conversion cannot fail. *)
Theorem array_elements_are_trimmed (self : TinyEnvSchema) (envVars : JsValue)
    (key : string) (des : list JsValue) :
  declaredDefault self key = Some (JArr des) ->
  let value := selectValue (getProperty envVars key) (JArr des) in
  let elements := arrayElements (ToString value) (delimiterOf self) in
  let rule := elementRule (arrayTypeOf self key) des in
  Forall (fun el => el <> "" /\ JsString.trim el = el) elements
  /\ (forall v,
        resultOf (processKey' self envVars (delimiterOf self) key) = Ok v ->
        exists vs,
          v = JArr vs
          /\ Forall2 (fun el x => scalarRule rule el = Some x) elements vs)
  /\ (rule <> "number" ->
      rule <> "boolean" ->
      convertValue syntaxErrorMessage key (delimiterOf self) value (JArr des)
        (arrayTypeOf self key)
      = Ok (JArr (map JStr elements))).
Proof.
  intros Hd value elements rule.
  assert (Hconv :
    convertValue syntaxErrorMessage key (delimiterOf self) value (JArr des)
      (arrayTypeOf self key)
    = match mapConvert elements rule key with
      | Ok vs => Ok (JArr vs)
      | Throw t => Throw t
      end).
  { unfold convertValue. simpl isUndefined. simpl typeof. cbv iota.
    change ("object" =? "number") with false.
    change ("object" =? "boolean") with false.
    change ("object" =? "object") with true. cbv iota.
    now rewrite parseArray_rule. }
  split; [apply arrayElements_invariant |]. split.
  - intros v. rewrite (processKey_with_default _ _ _ _ _ _ Hd) by discriminate.
    fold value. rewrite Hconv.
    destruct (mapConvert elements rule key) as [vs | t] eqn:E;
      [| discriminate].
    rewrite bind_lift_ok. intros H. apply validated_value in H. subst v.
    exists vs. split; [reflexivity | now apply (mapConvert_ok_inv _ key)].
  - intros Hn Hb. rewrite Hconv, mapConvert_identity; [reflexivity | |].
    + destruct (rule =? "number") eqn:E; [| reflexivity].
      apply String.eqb_eq in E. contradiction.
    + destruct (rule =? "boolean") eqn:E; [| reflexivity].
      apply String.eqb_eq in E. contradiction.
Qed.

(** X9. With the default delimiter, a default array of strings that are not
    empty, have no surrounding white space and hold no comma is its own
    fallback: when the raw value is absent or blank, the key's value is the
    default array itself (through its string form and back). *)
Theorem clean_string_array_default_is_fallback (self : TinyEnvSchema)
    (envVars : JsValue) (key : string) (xs : list string) :
  declaredDefault self key = Some (JArr (map JStr xs)) ->
  forallb cleanElement xs = true ->
  absentOrBlank (getProperty envVars key) ->
  delimiterOf self = "," ->
  (arrayTypeOf self key = None \/ arrayTypeOf self key = Some AString) ->
  processKey' self envVars (delimiterOf self) key
  = (runValidator self key (JArr (map JStr xs)) ;; ret (JArr (map JStr xs)))
  /\ (forall record,
        snd (validate' self envVars) = Success record ->
        In key (keys self) ->
        getProperty record key = JArr (map JStr xs)).
Proof.
  intros Hd Hclean Hraw Hdelim Htype.
  assert (H : processKey' self envVars (delimiterOf self) key
    = (runValidator self key (JArr (map JStr xs)) ;;
       ret (JArr (map JStr xs)))).
  { rewrite (processKey_with_default _ _ _ _ _ _ Hd) by discriminate.
    rewrite (absentOrBlank_select _ _ Hraw), Hdelim.
    unfold convertValue. simpl isUndefined. simpl typeof. cbv iota.
    change ("object" =? "number") with false.
    change ("object" =? "boolean") with false.
    change ("object" =? "object") with true. cbv iota.
    rewrite parseArray_rule, (arrayElements_clean _ Hclean).
    rewrite mapConvert_identity; [now rewrite bind_lift_ok | |];
      destruct Htype as [-> | ->]; try reflexivity;
      destruct xs; reflexivity. }
  split; [exact H | apply record_of_step, H].
Qed.

(** X10. A string converts as an array element exactly as it converts as a
    scalar of the same type, for numbers and for booleans; and a boolean
    spelling is accepted exactly when its lower-case form is, with the same
    value. *)
Theorem element_conversion_agrees_with_scalar (key key' delim s : string)
    (arrayType : option ArrayType) (v : JsValue) :
  (forall d,
     convertValue syntaxErrorMessage key delim (JStr s) (JNum d) arrayType
     = Ok v
     <-> convertToType s "number" key' = Ok v)
  /\ (forall b,
        convertValue syntaxErrorMessage key delim (JStr s) (JBool b) arrayType
        = Ok v
        <-> convertToType s "boolean" key' = Ok v)
  /\ (convertToType (JsString.toLowerCase s) "boolean" key' = Ok v
      <-> convertToType s "boolean" key' = Ok v).
Proof.
  split; [| split].
  - intros d. unfold convertValue, convertToType.
    cbn [isUndefined typeof ToString ToNumber].
    change ("number" =? "number") with true. cbv iota.
    destruct (JsNumber.isNaN (JsNumber.ofString s)); split; congruence.
  - intros b. unfold convertValue, convertToType.
    cbn [isUndefined typeof ToString].
    change ("boolean" =? "number") with false.
    change ("boolean" =? "boolean") with true. cbv iota.
    destruct (JsString.includes truthyWords (JsString.toLowerCase s));
      [tauto |].
    destruct (JsString.includes falsyWords (JsString.toLowerCase s));
      [tauto |].
    split; discriminate.
  - unfold convertToType.
    change ("boolean" =? "number") with false.
    change ("boolean" =? "boolean") with true. cbv iota.
    rewrite toLowerCase_idempotent.
    destruct (JsString.includes truthyWords (JsString.toLowerCase s));
      [tauto |].
    destruct (JsString.includes falsyWords (JsString.toLowerCase s));
      [tauto |].
    split; discriminate.
Qed.


(** X17. Every failure of the loop body for a key is an [Error] that names
    the key, unless it is an [Error] the validator itself threw: its
    message is the key between "Invalid default value for key ", "Missing
    environment variable: ", "Failed to parse " or "Validation failed for "
    and the rest of the message. *)
Theorem engine_errors_name_the_key (self : TinyEnvSchema) (envVars : JsValue)
    (delim key : string) (t : Thrown) :
  resultOf (processKey' self envVars delim key) = Throw t ->
  exists e,
    t = ThrownError e
    /\ ((exists check v,
           validatorOf self = Some check
           /\ check key v = Some (ThrownError e))
        \/ exists pre post,
             In pre ["Invalid default value for key ";
                     "Missing environment variable: ";
                     "Failed to parse "; "Validation failed for "]
             /\ message e = pre ++ key ++ post).
Proof.
  unfold processKey.
  destruct (_ && _).
  { intros [= <-]. eexists. split; [reflexivity |]. right.
    exists "Invalid default value for key ". eexists.
    split; [simpl; tauto | reflexivity]. }
  destruct (_ && _).
  { intros [= <-]. eexists. split; [reflexivity |]. right.
    exists "Missing environment variable: ", "".
    split; [simpl; tauto |]. simpl message.
    now rewrite (append_empty_r key). }
  assert (Hconv : forall t',
    convertValue syntaxErrorMessage key delim
      (selectValue (getProperty envVars key) (defaultOf self key))
      (defaultOf self key) (arrayTypeOf self key) = Throw t' ->
    exists e post,
      t' = ThrownError e /\ message e = "Failed to parse " ++ key ++ post).
  { intros t'. unfold convertValue.
    destruct (isUndefined (defaultOf self key)); [discriminate |].
    destruct (typeof (defaultOf self key) =? "number").
    { destruct (JsNumber.isNaN _); [| discriminate].
      intros [= <-]. do 2 eexists. split; reflexivity. }
    destruct (typeof (defaultOf self key) =? "boolean").
    { destruct (JsString.includes truthyWords _); [discriminate |].
      destruct (JsString.includes falsyWords _); [discriminate |].
      intros [= <-]. do 2 eexists. split; reflexivity. }
    destruct (typeof (defaultOf self key) =? "object"); [| discriminate].
    assert (Hobj : forall dv,
      parseObject syntaxErrorMessage key
        (selectValue (getProperty envVars key) (defaultOf self key)) dv
      = Throw t' ->
      exists e post,
        t' = ThrownError e /\ message e = "Failed to parse " ++ key ++ post).
    { intros dv. unfold parseObject.
      destruct (JSON_parse syntaxErrorMessage _) as [p | t''].
      - destruct (validateObjectShape p dv key []); [discriminate |].
        intros [= <-]. do 2 eexists. split; reflexivity.
      - intros [= <-]. do 2 eexists. split; reflexivity. }
    destruct (defaultOf self key); try apply Hobj.
    unfold parseArray. destruct (arrayTypeOf self key) as [ty |].
    - destruct (mapConvert _ _ key) eqn:E; [discriminate |].
      intros [= <-]. now apply mapConvert_error_names_key in E.
    - destruct (0 <? _)%nat; [| discriminate].
      destruct (mapConvert _ _ key) eqn:E; [discriminate |].
      intros [= <-]. now apply mapConvert_error_names_key in E. }
  destruct (convertValue _ _ _ _ _ _) as [pv | t'] eqn:E.
  - rewrite bind_lift_ok. unfold runValidator.
    destruct (validatorOf self) as [check |]; [| discriminate].
    unfold bind, ret. destruct (check key pv) as [[e | x] |] eqn:Ec; simpl;
      try discriminate; intros [= <-]; eexists; (split; [reflexivity |]).
    + left. exists check, pv. now split.
    + right. exists "Validation failed for ". eexists.
      split; [simpl; tauto | reflexivity].
  - simpl. intros [= <-]. destruct (Hconv _ eq_refl) as (e & post & -> & Hm).
    exists e. split; [reflexivity |]. right.
    exists "Failed to parse ", post. split; [simpl; tauto | exact Hm].
Qed.

End Further.

(* ===================================================================== *)
(** ** The further properties on concrete inputs                          *)
(* ===================================================================== *)

Lemma parseAndValidate_throws_errors_only_witness :
  exists e,
    ThrownError (newError "Validation failed for PORT: rejected")
    = ThrownError e
    /\ snd (validate sampleSyntaxErrorMessage
              (withValidator stringThrowingValidator
                 (schemaOf "PORT" (JNum (JsNumber.ofN 8080))))
              (envOf "PORT" "80"))
       = Failure [mkIssue (message e)].
Proof.
  exact (parseAndValidate_throws_errors_only sampleSyntaxErrorMessage
    (withValidator stringThrowingValidator
       (schemaOf "PORT" (JNum (JsNumber.ofN 8080))))
    (envOf "PORT" "80")
    (ThrownError (newError "Validation failed for PORT: rejected")) eq_refl).
Defined.



Lemma tinyenv_mirrors_validate_witness :
  exists e,
    resultOf (parseAndValidate sampleSyntaxErrorMessage
                (schemaOf "COUNT" (JNum (JsNumber.ofN 0)))
                (envOf "COUNT" "x"))
    = Throw (ThrownError e)
    /\ ThrownError (newError "Failed to parse COUNT as number: x")
       = ThrownError (mkError "Error" (message e)).
Proof.
  exact (proj2 (proj2 (tinyenv_mirrors_validate sampleSyntaxErrorMessage
    ["COUNT"]
    (Some (mkOptions (Some [("COUNT", JNum (JsNumber.ofN 0))]) None None None))
    (envOf "COUNT" "x")))
    (ThrownError (newError "Failed to parse COUNT as number: x")) eq_refl).
Defined.

Lemma validate_succeeds_iff_every_key_does_witness :
  exists record,
    snd (validate sampleSyntaxErrorMessage (mkSchema ["B"; "A"] None)
           (JObj [("A", JStr "1"); ("B", JStr "2")]))
    = Success record.
Proof.
  refine (proj1 (proj2 (validate_succeeds_iff_every_key_does
    sampleSyntaxErrorMessage (mkSchema ["A"; "B"] None)
    (JObj [("A", JStr "1"); ("B", JStr "2")]) eq_refl) ["B"; "A"] _) _).
  - apply perm_swap.
  - eexists. reflexivity.
Defined.


Lemma validate_reads_declared_keys_only_witness :
  validate sampleSyntaxErrorMessage (mkSchema ["A"] None)
    (JObj [("A", JStr "x")])
  = validate sampleSyntaxErrorMessage (mkSchema ["A"] None)
      (JObj [("A", JStr "x"); ("B", JStr "y")]).
Proof.
  apply validate_reads_declared_keys_only; try reflexivity.
  intros k [<- | []]. reflexivity.
Defined.

Lemma array_elements_are_trimmed_witness :
  Forall (fun el => el <> "" /\ JsString.trim el = el)
    (arrayElements " a , ,b," ",")
  /\ exists vs,
       JArr [JStr "a"; JStr "b"] = JArr vs
       /\ Forall2 (fun el x => scalarRule "string" el = Some x)
            (arrayElements " a , ,b," ",") vs.
Proof.
  pose proof (array_elements_are_trimmed sampleSyntaxErrorMessage
    (schemaOf "LIST" (JArr [])) (envOf "LIST" " a , ,b,") "LIST" [] eq_refl)
    as H.
  split; [exact (proj1 H) |].
  exact (proj1 (proj2 H) (JArr [JStr "a"; JStr "b"]) eq_refl).
Defined.

Lemma clean_string_array_default_is_fallback_witness :
  forallb cleanElement ["localhost"; "example.com"] = true
  /\ processKey sampleSyntaxErrorMessage
       (schemaOf "HOSTS" (JArr [JStr "localhost"; JStr "example.com"]))
       (envOf "HOSTS" "  ") "," "HOSTS"
     = ret (JArr [JStr "localhost"; JStr "example.com"]).
Proof.
  split; [reflexivity |].
  refine (proj1 (clean_string_array_default_is_fallback
    sampleSyntaxErrorMessage
    (schemaOf "HOSTS" (JArr [JStr "localhost"; JStr "example.com"]))
    (envOf "HOSTS" "  ") "HOSTS" ["localhost"; "example.com"]
    eq_refl eq_refl _ eq_refl (or_introl eq_refl))).
  right. exists "  ". split; reflexivity.
Defined.

Lemma element_conversion_agrees_with_scalar_witness :
  convertToType "YES" "boolean" "FLAGS" = Ok (JBool true).
Proof.
  exact (proj1 (proj1 (proj2 (element_conversion_agrees_with_scalar
    sampleSyntaxErrorMessage "FLAG" "FLAGS" "," "YES" None (JBool true)))
    false) eq_refl).
Defined.

Lemma shape_checks_arrays_by_position_witness :
  exists t,
    validateObjectShape (JArr [JNum (JsNumber.ofN 1)])
      (JArr [JNum (JsNumber.ofN 0); JNum (JsNumber.ofN 0)]) "C" ["a"]
    = Throw t.
Proof.
  refine (proj2 (shape_checks_arrays_by_position [JNum (JsNumber.ofN 1)]
    [JNum (JsNumber.ofN 0); JNum (JsNumber.ofN 0)] "C" ["a"] eq_refl) _ _).
  - simpl. lia.
  - repeat constructor; discriminate.
Defined.

Lemma shape_accepts_the_default_itself_witness :
  wellFormed configDefault = true
  /\ validateObjectShape configDefault configDefault "CONFIG" [] = Ok tt.
Proof.
  split; [reflexivity |].
  exact (shape_accepts_the_default_itself configDefault "CONFIG" eq_refl []).
Defined.

Lemma shape_errors_name_key_and_path_witness :
  exists e below,
    ThrownError (newError "Missing required property CONFIG.db.port")
    = ThrownError e
    /\ ((errorName e = "TypeError"
         /\ exists expected actual,
              message e = "Invalid type for " ++ dotted "CONFIG" ([] ++ below)
                            ++ ": expected " ++ expected ++ ", got " ++ actual)
        \/ (errorName e = "Error"
            /\ exists prop,
                 message e = "Missing required property "
                               ++ dotted "CONFIG" ([] ++ below) ++ "."
                               ++ prop)).
Proof.
  exact (shape_errors_name_key_and_path configDefault
    (JObj [("db", JObj [("host", JStr "localhost")])]) "CONFIG" []
    (ThrownError (newError "Missing required property CONFIG.db.port"))
    eq_refl).
Defined.


Lemma shape_of_propertyless_default_is_typeof_witness :
  ownProperties (JObj []) = []
  /\ validateObjectShape JNull (JObj []) "CONFIG" [] = Ok tt
  /\ validateObjectShape (JArr [JNull]) (JObj []) "CONFIG" [] = Ok tt.
Proof.
  split; [reflexivity |]. split.
  - exact (proj2 (shape_of_propertyless_default_is_typeof JNull (JObj [])
             "CONFIG" [] eq_refl) eq_refl).
  - exact (proj2 (shape_of_propertyless_default_is_typeof (JArr [JNull])
             (JObj []) "CONFIG" [] eq_refl) eq_refl).
Defined.

Lemma engine_errors_name_the_key_witness :
  exists e,
    ThrownError (newError
      "Failed to parse CONFIG as JSON: Unexpected token in JSON")
    = ThrownError e
    /\ ((exists check v,
           validatorOf (schemaOf "CONFIG" (JObj [])) = Some check
           /\ check "CONFIG" v = Some (ThrownError e))
        \/ exists pre post,
             In pre ["Invalid default value for key ";
                     "Missing environment variable: ";
                     "Failed to parse "; "Validation failed for "]
             /\ message e = pre ++ "CONFIG" ++ post).
Proof.
  exact (engine_errors_name_the_key sampleSyntaxErrorMessage
    (schemaOf "CONFIG" (JObj [])) (envOf "CONFIG" "invalid-json") ","
    "CONFIG"
    (ThrownError (newError
      "Failed to parse CONFIG as JSON: Unexpected token in JSON"))
    eq_refl).
Defined.
